(** * community.vmware: two modules as state-passing programs

    A shallow embedding of
      - plugins/modules/vmware_content_deploy_ovf_template.py
      - plugins/modules/vmware_object_permissions_info.py

    Both modules are straight-line Python: they read the module parameters,
    ask the platform for objects by name, issue one operation and leave
    through [module.exit_json] or [module.fail_json].  The platform and the
    helper base classes ([VmwareRestClient], [PyVmomi]) are not part of the
    modules; they appear here as a record of functions that answer each
    call with a returned value or a raised exception.  Every call the module
    issues is logged, in order, in the trace of the run.

    The deployment module keeps debugging notes in [module.result]
    (lines 192, 195 and 204), an attribute the module object does not
    have: reading it raises [AttributeError], which nobody catches. *)

From stdpp Require Import base strings gmap list sorting.

(** ** Python values, exceptions and the module protocol *)

Module Py.

(** Names, identifiers and optional parameters: [None] or a [str]. *)
Inductive val := PyNone | PyStr (s : string).

#[global] Instance val_eq_dec : EqDecision val.
Proof. solve_decision. Defined.

(** Truth value testing, as in [if x:] and [not x]. *)
Definition truthy (v : val) : bool :=
  match v with
  | PyNone => false
  | PyStr s => negb (String.eqb s "")
  end.

(** ["%s" % v] *)
Definition str (v : val) : string :=
  match v with
  | PyNone => "None"
  | PyStr s => s
  end.

(** The message [msg] names [v]: it has ["%s" % v] in it. *)
Definition mentions (msg : string) (v : val) : Prop :=
  ∃ pre post, msg = pre +:+ str v +:+ post.

(** [d.get(k)] on the parameter dictionary. *)
Definition get (d : gmap string val) (k : string) : val :=
  default PyNone (d !! k).

(** Exceptions, by the classes the modules distinguish. *)
Inductive exc :=
| Error (payload : string)          (* com.vmware.vapi.std.errors_client.Error *)
| KeyError (key : string)
| TypeError (text : string)
| AttributeError (name : string)
| OtherException (text : string)    (* any other subclass of Exception *)
| NotAnException (text : string).   (* BaseException outside Exception *)

(** [except Exception] catches everything but the last class. *)
Definition is_Exception (e : exc) : bool :=
  match e with
  | NotAnException _ => false
  | _ => true
  end.

Definition is_Error (e : exc) : bool :=
  match e with
  | Error _ => true
  | _ => false
  end.

(** What a call into the platform or a helper gives back. *)
Inductive reply (A : Type) :=
| Returned (a : A)
| Raised (e : exc).
Arguments Returned {A} a.
Arguments Raised {A} e.

(** JSON documents; a dictionary keeps its insertion order. *)
#[warnings="-register-all"] Inductive json :=
| JNull
| JBool (b : bool)
| JStr (s : string)
| JList (l : list json)
| JDict (kv : list (string * json)).

Definition json_of_val (v : val) : json :=
  match v with
  | PyNone => JNull
  | PyStr s => JStr s
  end.

(** [d[k] = v] and [d.update(k=v)] on an insertion-ordered dictionary. *)
Fixpoint dict_set (k : string) (v : json) (d : list (string * json))
  : list (string * json) :=
  match d with
  | [] => [(k, v)]
  | (k', v') :: d' =>
      if String.eqb k k' then (k, v) :: d' else (k', v') :: dict_set k v d'
  end.

Fixpoint dict_get (k : string) (d : list (string * json)) : option json :=
  match d with
  | [] => None
  | (k', v') :: d' => if String.eqb k k' then Some v' else dict_get k d'
  end.

(** How a run ends.  [exit_json] and [fail_json] print the result document
    and leave the interpreter; an exception nobody catches ends the run
    with a traceback. *)
Inductive outcome :=
| exit_json (kwargs : list (string * json))
| fail_json (msg : string)
| uncaught (e : exc).

Definition failed (o : outcome) : bool :=
  match o with
  | exit_json _ => false
  | fail_json _ | uncaught _ => true
  end.

(** *** The monad of a run: state passing with early exit *)

Inductive res (A : Type) :=
| Next (a : A)
| Exit (o : outcome).
Arguments Next {A} a.
Arguments Exit {A} o.

Definition M (S A : Type) : Type := S → res A * S.

Definition ret {S A} (a : A) : M S A := λ s, (Next a, s).

Definition bind {S A B} (m : M S A) (k : A → M S B) : M S B :=
  λ s, match m s with
       | (Next a, s') => k a s'
       | (Exit o, s') => (Exit o, s')
       end.

#[global] Instance M_ret {S} : MRet (M S) := λ A, ret.
#[global] Instance M_bind {S} : MBind (M S) := λ A B k m, bind m k.

Definition leave {S A} (o : outcome) : M S A := λ s, (Exit o, s).
Definition read {S} : M S S := λ s, (Next s, s).
Definition modify {S} (f : S → S) : M S unit := λ s, (Next tt, f s).

(** [if c: body] *)
Definition when {S} (c : bool) (body : M S unit) : M S unit :=
  if c then body else ret tt.

(** A module that returns from [main] without a result document. *)
Definition no_output : outcome := uncaught (OtherException "no output").

Definition finish {S} (r : res unit * S) : outcome * S :=
  match r with
  | (Next _, s) => (no_output, s)
  | (Exit o, s) => (o, s)
  end.

End Py.

Import Py.

(** ** vmware_content_deploy_ovf_template *)

(** The request classes of [com.vmware.vcenter.ovf_client.LibraryItem],
    with the fields the module passes. *)
Module LibraryItem.

Record DeploymentTarget := {
  resource_pool_id : val;
  folder_id : val;
}.

Record ResourcePoolDeploymentSpec := {
  name : val;
  annotation : val;
  accept_all_eula : bool;
  network_mappings : val;
  storage_mappings : val;
  storage_provisioning : val;
  storage_profile_id : val;
  locale : val;
  flags : val;
  additional_parameters : val;
  default_datastore_id : val;
}.

(** The answer of [deploy]: [succeeded] and, when a machine was created,
    [resource_id.id]. *)
Record DeploymentResult := {
  succeeded : bool;
  resource_id : option val;
}.

End LibraryItem.

Module DeployOvf.

(** A virtual machine object of pyVmomi; the module reads [_moId]. *)
Record VirtualMachine := { _moId : val }.

(** A datastore cluster object, known by its managed object id. *)
Definition StoragePod := string.

(** The calls a run can issue, with their arguments. *)
Module Call.
Inductive t :=
| get_vm (vm_name : val)
| get_datacenter_by_name (datacenter_name : val)
| get_datastore_by_name (datacenter datastore : val)
| find_datastore_cluster_by_name (datastore_cluster : val)
| get_recommended_datastore (dsc : StoragePod)
| get_library_item_from_content_library_name (template library : val)
| get_library_item_by_name (template : val)
| get_folder_by_name (datacenter folder : val)
| get_host_by_name (datacenter host : val)
| get_resource_pool_by_name (datacenter resourcepool cluster host : val)
| get_cluster_by_name (datacenter cluster : val)
| Cluster_get (cluster_id : val)
| filter (ovf_library_item_id : val) (target : LibraryItem.DeploymentTarget)
| deploy (ovf_library_item_id : val) (target : LibraryItem.DeploymentTarget)
         (spec : LibraryItem.ResourcePoolDeploymentSpec).
End Call.

(** The platform as the module sees it: the lookups inherited from
    [VmwareRestClient], those of the [PyVmomi] helper, the REST services
    and the two message helpers.  [get_vm] answers for the machine with
    the requested name. *)
Record Vcenter := {
  get_vm : val → reply (option VirtualMachine);
  get_datacenter_by_name : val → reply val;
  get_datastore_by_name : val → val → reply val;
  find_datastore_cluster_by_name : val → reply (option StoragePod);
  get_recommended_datastore : StoragePod → reply val;
  get_library_item_from_content_library_name : val → val → reply val;
  get_library_item_by_name : val → reply val;
  get_folder_by_name : val → val → reply val;
  get_host_by_name : val → val → reply val;
  get_resource_pool_by_name : val → val → val → val → reply val;
  get_cluster_by_name : val → val → reply val;
  Cluster_get : val → reply val;       (* the [resource_pool] of the cluster *)
  filter : val → LibraryItem.DeploymentTarget → reply val;  (* its [annotation] *)
  deploy : val → LibraryItem.DeploymentTarget →
           LibraryItem.ResourcePoolDeploymentSpec →
           reply LibraryItem.DeploymentResult;
  get_error_message : exc → string;
  to_native : exc → string;
}.

(** The [AnsibleModule] object that [main] builds (lines 361-367) and
    hands to the class: the parameters and the check-mode flag.  The
    object has no attribute [result]: the class of
    ansible.module_utils.basic defines none, and nothing in the module
    assigns one. *)
Record AnsibleModule := {
  params : gmap string val;
  check_mode : bool;
}.

(** The attributes of a [VmwareContentDeployOvfTemplate] object. *)
Record Self := {
  datacenter_id : val;
  datastore_id : val;
  library_item_id : val;
  folder_id : val;
  host_id : val;
  cluster_id : val;
  resourcepool_id : val;
  template : val;
  library : val;
  vm_name : val;
  datacenter : val;
  datastore : val;
  datastore_cluster : val;
  folder : val;
  resourcepool : val;
  cluster : val;
  host : val;
  storage_provisioning : val;
  ovf_summary : option val;
  deploy_spec : option LibraryItem.ResourcePoolDeploymentSpec;
}.

Record state := {
  self : Self;
  trace : list Call.t;
}.

(** *** Attribute assignment: [self.x = v] *)

Definition set_datacenter_id (v : val) (o : Self) : Self :=
  {| datacenter_id := v; datastore_id := datastore_id o;
     library_item_id := library_item_id o; folder_id := folder_id o;
     host_id := host_id o; cluster_id := cluster_id o;
     resourcepool_id := resourcepool_id o; template := template o;
     library := library o; vm_name := vm_name o;
     datacenter := datacenter o; datastore := datastore o;
     datastore_cluster := datastore_cluster o; folder := folder o;
     resourcepool := resourcepool o; cluster := cluster o; host := host o;
     storage_provisioning := storage_provisioning o;
     ovf_summary := ovf_summary o; deploy_spec := deploy_spec o |}.

Definition set_datastore_id (v : val) (o : Self) : Self :=
  {| datacenter_id := datacenter_id o; datastore_id := v;
     library_item_id := library_item_id o; folder_id := folder_id o;
     host_id := host_id o; cluster_id := cluster_id o;
     resourcepool_id := resourcepool_id o; template := template o;
     library := library o; vm_name := vm_name o;
     datacenter := datacenter o; datastore := datastore o;
     datastore_cluster := datastore_cluster o; folder := folder o;
     resourcepool := resourcepool o; cluster := cluster o; host := host o;
     storage_provisioning := storage_provisioning o;
     ovf_summary := ovf_summary o; deploy_spec := deploy_spec o |}.

Definition set_library_item_id (v : val) (o : Self) : Self :=
  {| datacenter_id := datacenter_id o; datastore_id := datastore_id o;
     library_item_id := v; folder_id := folder_id o; host_id := host_id o;
     cluster_id := cluster_id o; resourcepool_id := resourcepool_id o;
     template := template o; library := library o; vm_name := vm_name o;
     datacenter := datacenter o; datastore := datastore o;
     datastore_cluster := datastore_cluster o; folder := folder o;
     resourcepool := resourcepool o; cluster := cluster o; host := host o;
     storage_provisioning := storage_provisioning o;
     ovf_summary := ovf_summary o; deploy_spec := deploy_spec o |}.

Definition set_folder_id (v : val) (o : Self) : Self :=
  {| datacenter_id := datacenter_id o; datastore_id := datastore_id o;
     library_item_id := library_item_id o; folder_id := v;
     host_id := host_id o; cluster_id := cluster_id o;
     resourcepool_id := resourcepool_id o; template := template o;
     library := library o; vm_name := vm_name o;
     datacenter := datacenter o; datastore := datastore o;
     datastore_cluster := datastore_cluster o; folder := folder o;
     resourcepool := resourcepool o; cluster := cluster o; host := host o;
     storage_provisioning := storage_provisioning o;
     ovf_summary := ovf_summary o; deploy_spec := deploy_spec o |}.

Definition set_host_id (v : val) (o : Self) : Self :=
  {| datacenter_id := datacenter_id o; datastore_id := datastore_id o;
     library_item_id := library_item_id o; folder_id := folder_id o;
     host_id := v; cluster_id := cluster_id o;
     resourcepool_id := resourcepool_id o; template := template o;
     library := library o; vm_name := vm_name o;
     datacenter := datacenter o; datastore := datastore o;
     datastore_cluster := datastore_cluster o; folder := folder o;
     resourcepool := resourcepool o; cluster := cluster o; host := host o;
     storage_provisioning := storage_provisioning o;
     ovf_summary := ovf_summary o; deploy_spec := deploy_spec o |}.

Definition set_cluster_id (v : val) (o : Self) : Self :=
  {| datacenter_id := datacenter_id o; datastore_id := datastore_id o;
     library_item_id := library_item_id o; folder_id := folder_id o;
     host_id := host_id o; cluster_id := v;
     resourcepool_id := resourcepool_id o; template := template o;
     library := library o; vm_name := vm_name o;
     datacenter := datacenter o; datastore := datastore o;
     datastore_cluster := datastore_cluster o; folder := folder o;
     resourcepool := resourcepool o; cluster := cluster o; host := host o;
     storage_provisioning := storage_provisioning o;
     ovf_summary := ovf_summary o; deploy_spec := deploy_spec o |}.

Definition set_resourcepool_id (v : val) (o : Self) : Self :=
  {| datacenter_id := datacenter_id o; datastore_id := datastore_id o;
     library_item_id := library_item_id o; folder_id := folder_id o;
     host_id := host_id o; cluster_id := cluster_id o;
     resourcepool_id := v; template := template o; library := library o;
     vm_name := vm_name o; datacenter := datacenter o;
     datastore := datastore o; datastore_cluster := datastore_cluster o;
     folder := folder o; resourcepool := resourcepool o;
     cluster := cluster o; host := host o;
     storage_provisioning := storage_provisioning o;
     ovf_summary := ovf_summary o; deploy_spec := deploy_spec o |}.

Definition set_ovf_summary (v : option val) (o : Self) : Self :=
  {| datacenter_id := datacenter_id o; datastore_id := datastore_id o;
     library_item_id := library_item_id o; folder_id := folder_id o;
     host_id := host_id o; cluster_id := cluster_id o;
     resourcepool_id := resourcepool_id o; template := template o;
     library := library o; vm_name := vm_name o;
     datacenter := datacenter o; datastore := datastore o;
     datastore_cluster := datastore_cluster o; folder := folder o;
     resourcepool := resourcepool o; cluster := cluster o; host := host o;
     storage_provisioning := storage_provisioning o; ovf_summary := v;
     deploy_spec := deploy_spec o |}.

Definition set_deploy_spec (v : option LibraryItem.ResourcePoolDeploymentSpec) (o : Self) : Self :=
  {| datacenter_id := datacenter_id o; datastore_id := datastore_id o;
     library_item_id := library_item_id o; folder_id := folder_id o;
     host_id := host_id o; cluster_id := cluster_id o;
     resourcepool_id := resourcepool_id o; template := template o;
     library := library o; vm_name := vm_name o;
     datacenter := datacenter o; datastore := datastore o;
     datastore_cluster := datastore_cluster o; folder := folder o;
     resourcepool := resourcepool o; cluster := cluster o; host := host o;
     storage_provisioning := storage_provisioning o;
     ovf_summary := ovf_summary o; deploy_spec := v |}.

Definition assign (f : Self → Self) : M state unit :=
  modify (λ s, {| self := f (self s); trace := trace s |}).

Definition this : M state Self := s ← read; mret (self s).

(** [self.module.result], the target of the stores of lines 192, 195 and
    204: the module has no such attribute, so reading it raises
    [AttributeError] and the store is not made. *)
Definition module_result : M state unit :=
  leave (uncaught (AttributeError "result")).

(** *** Calls *)

Definition logged (c : Call.t) (s : state) : state :=
  {| self := self s; trace := trace s ++ [c] |}.

Definition log (c : Call.t) : M state unit := modify (logged c).

(** A call outside any [try]: an exception it raises ends the run. *)
Definition call {A} (c : Call.t) (r : reply A) : M state A :=
  log c;;
  match r with
  | Returned a => mret a
  | Raised e => leave (uncaught e)
  end.

(** A call inside a [try]: the reply is handed to the handlers. *)
Definition try_call {A} (c : Call.t) (r : reply A) : M state (reply A) :=
  log c;; mret r.

(** *** The class *)

(** [__init__], lines 144-169: the attributes, with the all-lowercase
    spelling of the provisioning type replaced by the canonical one. *)
Definition new (module : AnsibleModule) : Self :=
  let sp := get (params module) "storage_provisioning" in
  {| datacenter_id := PyNone;
     datastore_id := PyNone;
     library_item_id := PyNone;
     folder_id := PyNone;
     host_id := PyNone;
     cluster_id := PyNone;
     resourcepool_id := PyNone;
     template := get (params module) "template";
     library := get (params module) "library";
     vm_name := get (params module) "name";
     datacenter := get (params module) "datacenter";
     datastore := get (params module) "datastore";
     datastore_cluster := get (params module) "datastore_cluster";
     folder := get (params module) "folder";
     resourcepool := get (params module) "resource_pool";
     cluster := get (params module) "cluster";
     host := get (params module) "host";
     storage_provisioning :=
       if bool_decide (sp = PyStr "eagerzeroedthick")
       then PyStr "eagerZeroedThick" else sp;
     ovf_summary := None;
     deploy_spec := None |}.

Definition start (module : AnsibleModule) : state :=
  {| self := new module; trace := [] |}.

(** [__init__], lines 175-183: leave when the machine is already there.
    The model is of an installation in which the SDK was imported and the
    base class constructor returned. *)
Definition init (vc : Vcenter) (module : AnsibleModule) : M state unit :=
  vm ← call (Call.get_vm (get (params module) "name"))
            (get_vm vc (get (params module) "name"));
  match vm with
  | Some vm =>
      o ← this;
      leave (exit_json
        [("changed", JBool false);
         ("vm_deploy_info", JDict
            [("msg", JStr ("Virtual Machine '" +:+ str (vm_name o)
                           +:+ "' already Exists."));
             ("vm_id", json_of_val (_moId vm))])])
  | None => mret tt
  end.

(** [deploy_vm_from_ovf_template], block by block.
    Lines 186-189: find the datacenter by the given datacenter name. *)
Definition find_datacenter (vc : Vcenter) : M state unit :=
  o ← this;
  r ← call (Call.get_datacenter_by_name (datacenter o))
           (get_datacenter_by_name vc (datacenter o));
  assign (set_datacenter_id r);;
  o ← this;
  when (negb (truthy (datacenter_id o)))
    (leave (fail_json ("Failed to find the datacenter " +:+ str (datacenter o)))).

(** Lines 191-209: find the datastore by the given datastore name, or by
    the given datastore cluster name.  The block opens with
    [self.module.result['debug'] = {}] (line 192). *)
Definition find_datastore (vc : Vcenter) : M state unit :=
  module_result;;
  o ← this;
  when (truthy (datastore o))
    (r ← call (Call.get_datastore_by_name (datacenter o) (datastore o))
              (get_datastore_by_name vc (datacenter o) (datastore o));
     assign (set_datastore_id r);;
     module_result;;
     o ← this;
     when (negb (truthy (datastore_id o)))
       (leave (fail_json ("Failed to find the datastore " +:+ str (datastore o)))));;
  o ← this;
  when (truthy (datastore_cluster o) && negb (truthy (datastore_id o)))
    (dsc ← call (Call.find_datastore_cluster_by_name (datastore_cluster o))
                (find_datastore_cluster_by_name vc (datastore_cluster o));
     match dsc with
     | Some dsc =>
         r ← call (Call.get_recommended_datastore dsc)
                  (get_recommended_datastore vc dsc);
         assign (set_datastore_id r);;
         module_result
     | None =>
         leave (fail_json ("Failed to find the datastore cluster "
                           +:+ str (datastore_cluster o)))
     end);;
  o ← this;
  when (negb (truthy (datastore_id o)))
    (leave (fail_json
       "Failed to find the datastore using either datastore or datastore cluster")).

(** Lines 211-220: find the library item (template) by the given name. *)
Definition find_library_item (vc : Vcenter) : M state unit :=
  o ← this;
  if truthy (library o) then
    r ← call (Call.get_library_item_from_content_library_name
                (template o) (library o))
             (get_library_item_from_content_library_name vc
                (template o) (library o));
    assign (set_library_item_id r);;
    o ← this;
    when (negb (truthy (library_item_id o)))
      (leave (fail_json ("Failed to find the library Item " +:+ str (template o)
                         +:+ " in content library " +:+ str (library o))))
  else
    r ← call (Call.get_library_item_by_name (template o))
             (get_library_item_by_name vc (template o));
    assign (set_library_item_id r);;
    o ← this;
    when (negb (truthy (library_item_id o)))
      (leave (fail_json ("Failed to find the library Item " +:+ str (template o)))).

(** Lines 222-225: find the folder by the given folder name. *)
Definition find_folder (vc : Vcenter) : M state unit :=
  o ← this;
  r ← call (Call.get_folder_by_name (datacenter o) (folder o))
           (get_folder_by_name vc (datacenter o) (folder o));
  assign (set_folder_id r);;
  o ← this;
  when (negb (truthy (folder_id o)))
    (leave (fail_json ("Failed to find the folder " +:+ str (folder o)))).

(** Lines 227-231: verify that the host exists, if specified. *)
Definition verify_host (vc : Vcenter) : M state unit :=
  o ← this;
  when (truthy (host o))
    (r ← call (Call.get_host_by_name (datacenter o) (host o))
              (get_host_by_name vc (datacenter o) (host o));
     assign (set_host_id r);;
     o ← this;
     when (negb (truthy (host_id o)))
       (leave (fail_json ("Failed to find the Host " +:+ str (host o))))).

(** Lines 233-246: find the resource pool by the given name, or take the
    one of the given cluster. *)
Definition find_resourcepool (vc : Vcenter) : M state unit :=
  o ← this;
  (if truthy (resourcepool o) then
     r ← call (Call.get_resource_pool_by_name
                 (datacenter o) (resourcepool o) (cluster o) (host o))
              (get_resource_pool_by_name vc
                 (datacenter o) (resourcepool o) (cluster o) (host o));
     assign (set_resourcepool_id r);;
     o ← this;
     when (negb (truthy (resourcepool_id o)))
       (leave (fail_json ("Failed to find the resource_pool "
                          +:+ str (resourcepool o))))
   else if truthy (cluster o) then
     r ← call (Call.get_cluster_by_name (datacenter o) (cluster o))
              (get_cluster_by_name vc (datacenter o) (cluster o));
     assign (set_cluster_id r);;
     o ← this;
     when (negb (truthy (cluster_id o)))
       (leave (fail_json ("Failed to find the Cluster " +:+ str (cluster o))));;
     o ← this;
     cluster_obj_resource_pool ← call (Call.Cluster_get (cluster_id o))
                                      (Cluster_get vc (cluster_id o));
     assign (set_resourcepool_id cluster_obj_resource_pool)
   else mret tt);;
  o ← this;
  when (negb (truthy (resourcepool_id o)))
    (leave (fail_json "Failed to find a resource pool either by name or cluster")).

(** Lines 248-289: build the target and the spec, deploy, report. *)
Definition deploy_library_item (vc : Vcenter) : M state unit :=
  o ← this;
  let deployment_target :=
    {| LibraryItem.resource_pool_id := resourcepool_id o;
       LibraryItem.folder_id := folder_id o |} in
  r ← call (Call.filter (library_item_id o) deployment_target)
           (filter vc (library_item_id o) deployment_target);
  assign (set_ovf_summary (Some r));;
  o ← this;
  match ovf_summary o with
  | None => leave (uncaught (AttributeError "ovf_summary"))
  | Some ovf_summary_annotation =>
      assign (set_deploy_spec (Some
        {| LibraryItem.name := vm_name o;
           LibraryItem.annotation := ovf_summary_annotation;
           LibraryItem.accept_all_eula := true;
           LibraryItem.network_mappings := PyNone;
           LibraryItem.storage_mappings := PyNone;
           LibraryItem.storage_provisioning := storage_provisioning o;
           LibraryItem.storage_profile_id := PyNone;
           LibraryItem.locale := PyNone;
           LibraryItem.flags := PyNone;
           LibraryItem.additional_parameters := PyNone;
           LibraryItem.default_datastore_id := datastore_id o |}))
  end;;
  o ← this;
  match deploy_spec o with
  | None => leave (uncaught (AttributeError "deploy_spec"))
  | Some spec =>
      r ← try_call (Call.deploy (library_item_id o) deployment_target spec)
                   (deploy vc (library_item_id o) deployment_target spec);
      match r with
      | Raised e =>
          if is_Error e then leave (fail_json (get_error_message vc e))
          else if is_Exception e then leave (fail_json (to_native vc e))
          else leave (uncaught e)
      | Returned result =>
          when (LibraryItem.succeeded result)
            (match LibraryItem.resource_id result with
             | None => leave (uncaught (AttributeError "id"))
             | Some id =>
                 leave (exit_json
                   [("changed", JBool true);
                    ("vm_deploy_info", JDict
                       [("msg", JStr ("Deployed Virtual Machine '"
                                      +:+ str (vm_name o) +:+ "'."));
                        ("vm_id", json_of_val id)])])
             end);;
          leave (exit_json
            [("changed", JBool false);
             ("vm_deploy_info", JDict
                [("msg", JStr "Virtual Machine deployment failed");
                 ("vm_id", JStr "")])])
      end
  end.

Definition deploy_vm_from_ovf_template (vc : Vcenter) : M state unit :=
  find_datacenter vc;;
  find_datastore vc;;
  find_library_item vc;;
  find_folder vc;;
  verify_host vc;;
  find_resourcepool vc;;
  deploy_library_item vc.

(** [main], lines 368-377. *)
Definition main (vc : Vcenter) (module : AnsibleModule) : outcome * state :=
  finish
    ((init vc module;;
      when (check_mode module)
        (match params module !! "name" with
         | None => leave (uncaught (KeyError "name"))
         | Some vm_name =>
             leave (exit_json
               (dict_set "desired_operation" (JStr "Create VM with PowerOff State")
                  (dict_set "changed" (JBool true)
                     (dict_set "vm_name" (json_of_val vm_name)
                        [("failed", JBool false); ("changed", JBool false)]))))
         end);;
      deploy_vm_from_ovf_template vc)
     (start module)).

End DeployOvf.

(** ** vmware_object_permissions_info *)

Module PermissionsInfo.

(** A managed object, known by its managed object id. *)
Definition ManagedObject := string.

Module Call.
Inductive t :=
| find_obj (vimtype : list string) (name : val)
| RetrieveEntityPermissions (entity : ManagedObject) (inherited : bool).
End Call.

Section Platform.

(** One entry of the list [RetrieveEntityPermissions] answers with. *)
Variable Permission : Type.

(** The service content of the connection and the helpers of [PyVmomi]:
    [vim] tells which names the [vim] namespace defines. *)
Record Content := {
  rootFolder : ManagedObject;
  vim : string → bool;
  find_obj : list string → val → reply (option ManagedObject);
  RetrieveEntityPermissions : ManagedObject → bool → reply (list Permission);
  to_json : list Permission → json;
}.

Record AnsibleModule := {
  params : gmap string val;
  check_mode : bool;
}.

(** The attributes of a [VMwareObjectPermissionsInfo] object;
    [applied_to], [current_obj] and [current_perms] exist once assigned. *)
Record Self := {
  result : list (string * json);
  is_group : bool;
  applied_to : option val;
  current_obj : option (option ManagedObject);
  current_perms : option (list Permission);
}.

Record state := {
  self : Self;
  warnings : list string;
  trace : list Call.t;
}.

Definition set_result (v : list (string * json)) (o : Self) : Self :=
  {| result := v; is_group := is_group o; applied_to := applied_to o;
     current_obj := current_obj o; current_perms := current_perms o |}.

Definition set_is_group (v : bool) (o : Self) : Self :=
  {| result := result o; is_group := v; applied_to := applied_to o;
     current_obj := current_obj o; current_perms := current_perms o |}.

Definition set_applied_to (v : val) (o : Self) : Self :=
  {| result := result o; is_group := is_group o; applied_to := Some v;
     current_obj := current_obj o; current_perms := current_perms o |}.

Definition set_current_obj (v : option ManagedObject) (o : Self) : Self :=
  {| result := result o; is_group := is_group o; applied_to := applied_to o;
     current_obj := Some v; current_perms := current_perms o |}.

Definition set_current_perms (v : list Permission) (o : Self) : Self :=
  {| result := result o; is_group := is_group o; applied_to := applied_to o;
     current_obj := current_obj o; current_perms := Some v |}.

Definition assign (f : Self → Self) : M state unit :=
  modify (λ s, {| self := f (self s); warnings := warnings s;
                  trace := trace s |}).

Definition this : M state Self := s ← read; mret (self s).

(** [self.module.warn(msg)] *)
Definition warn (msg : string) : M state unit :=
  modify (λ s, {| self := self s; warnings := warnings s ++ [msg];
                  trace := trace s |}).

Definition logged (c : Call.t) (s : state) : state :=
  {| self := self s; warnings := warnings s; trace := trace s ++ [c] |}.

Definition call {A} (c : Call.t) (r : reply A) : M state A :=
  modify (logged c);;
  match r with
  | Returned a => mret a
  | Raised e => leave (uncaught e)
  end.

(** [self.params[k]] *)
Definition item (module : AnsibleModule) (k : string) : M state val :=
  match params module !! k with
  | Some v => mret v
  | None => leave (uncaught (KeyError k))
  end.

(** [getattr(vim, name)]: the class of that name, here the name itself. *)
Definition getattr_vim (ct : Content) (name : val) : M state (reply string) :=
  match name with
  | PyNone => leave (uncaught (TypeError "attribute name must be string"))
  | PyStr n =>
      if vim ct n then mret (Returned n) else mret (Raised (AttributeError n))
  end.

Definition new : Self :=
  {| result := []; is_group := false; applied_to := None;
     current_obj := None; current_perms := None |}.

Definition start : state := {| self := new; warnings := []; trace := [] |}.

(** Lines 155-156. *)
Definition get_perms (ct : Content) : M state unit :=
  o ← this;
  match current_obj o with
  | None => leave (uncaught (AttributeError "current_obj"))
  | Some None => leave (uncaught (TypeError "entity"))
  | Some (Some obj) =>
      r ← call (Call.RetrieveEntityPermissions obj false)
               (RetrieveEntityPermissions ct obj false);
      assign (set_current_perms r)
  end.

(** Lines 158-181. *)
Definition get_object (ct : Content) (module : AnsibleModule) : M state unit :=
  (* find_obj doesn't include rootFolder *)
  object_type ← item module "object_type";
  is_root ← (if bool_decide (object_type = PyStr "Folder")
             then object_name ← item module "object_name";
                  mret (bool_decide (object_name = PyStr "rootFolder"))
             else mret false);
  if (is_root : bool) then assign (set_current_obj (Some (rootFolder ct)))
  else
    object_type ← item module "object_type";
    cls ← getattr_vim ct object_type;
    match cls with
    | Raised _ =>
        object_type ← item module "object_type";
        leave (fail_json ("Object type " +:+ str object_type
                          +:+ " is not valid."))
    | Returned _ => mret tt
    end;;
    object_type ← item module "object_type";
    cls ← getattr_vim ct object_type;
    match cls with
    | Raised e => leave (uncaught e)
    | Returned cls =>
        object_name ← item module "object_name";
        r ← call (Call.find_obj [cls] object_name)
                 (find_obj ct [cls] object_name);
        assign (set_current_obj r)
    end;;
    o ← this;
    when (bool_decide (current_obj o = Some None))
      (object_name ← item module "object_name";
       object_type ← item module "object_type";
       leave (fail_json ("Specified object " +:+ str object_name
                         +:+ " of type " +:+ str object_type
                         +:+ " was not found.")));;
    object_type ← item module "object_type";
    when (bool_decide (object_type = PyStr "DistributedVirtualSwitch"))
      (warn ("You are applying permissions to a Distributed vSwitch. "
             +:+ "This will probably fail, since Distributed vSwitches inherits permissions "
             +:+ "from the datacenter or a folder level. "
             +:+ "Define permissions on the datacenter or the folder containing the switch.")).

(** [__init__], lines 136-153.  The model is of a run in which the base
    class constructor returned, that is, the connection was made. *)
Definition init (ct : Content) (module : AnsibleModule) : M state unit :=
  assign (set_result []);;
  assign (set_is_group false);;
  (if bool_decide (get (params module) "principal" ≠ PyNone) then
     principal ← item module "principal";
     assign (set_applied_to principal)
   else if bool_decide (get (params module) "group" ≠ PyNone) then
     group ← item module "group";
     assign (set_applied_to group);;
     assign (set_is_group true)
   else mret tt);;
  get_object ct module;;
  get_perms ct;;
  o ← this;
  match current_perms o with
  | None => leave (uncaught (AttributeError "current_perms"))
  | Some perms =>
      assign (set_result (dict_set "permissions" (to_json ct perms) (result o)));;
      o ← this;
      leave (exit_json (result o))
  end.

(** [main], lines 235-236: [process_state] is whatever the object
    answers to that name. *)
Variable process_state : M state unit.

Definition main (ct : Content) (module : AnsibleModule) : outcome * state :=
  finish ((init ct module;; process_state) start).

End Platform.

End PermissionsInfo.

(** ** Vocabulary of the statements *)

(** Weakest preconditions for the monad of a run: [Q] for a computation
    that goes on, [E] for one that leaves. *)
Module Hoare.

Definition wp {S A} (m : M S A) (Q : A → S → Prop) (E : outcome → S → Prop)
    (s : S) : Prop :=
  match m s with
  | (Next a, s') => Q a s'
  | (Exit o, s') => E o s'
  end.

End Hoare.

Module DeployRun.

Import DeployOvf.

(** The step of the resolution chain a call belongs to: datacenter (1),
    datastore or datastore cluster (2), library item (3), folder (4),
    host (5), resource pool or cluster (6); the existence check is step
    0, the OVF query 7 and the deployment 8. *)
Definition stage (c : Call.t) : nat :=
  match c with
  | Call.get_vm _ => 0
  | Call.get_datacenter_by_name _ => 1
  | Call.get_datastore_by_name _ _
  | Call.find_datastore_cluster_by_name _
  | Call.get_recommended_datastore _ => 2
  | Call.get_library_item_from_content_library_name _ _
  | Call.get_library_item_by_name _ => 3
  | Call.get_folder_by_name _ _ => 4
  | Call.get_host_by_name _ _ => 5
  | Call.get_resource_pool_by_name _ _ _ _
  | Call.get_cluster_by_name _ _
  | Call.Cluster_get _ => 6
  | Call.filter _ _ => 7
  | Call.deploy _ _ _ => 8
  end.

Definition is_resolver (c : Call.t) : bool :=
  (1 <=? stage c) && (stage c <=? 6).

Definition is_deploy (c : Call.t) : bool :=
  match c with
  | Call.deploy _ _ _ => true
  | _ => false
  end.

(** The answer of the platform to a call that looks an identifier up. *)
Definition answer (vc : Vcenter) (c : Call.t) : option (reply val) :=
  match c with
  | Call.get_datacenter_by_name n => Some (get_datacenter_by_name vc n)
  | Call.get_datastore_by_name d n => Some (get_datastore_by_name vc d n)
  | Call.get_recommended_datastore dsc => Some (get_recommended_datastore vc dsc)
  | Call.get_library_item_from_content_library_name t l =>
      Some (get_library_item_from_content_library_name vc t l)
  | Call.get_library_item_by_name t => Some (get_library_item_by_name vc t)
  | Call.get_folder_by_name d f => Some (get_folder_by_name vc d f)
  | Call.get_host_by_name d h => Some (get_host_by_name vc d h)
  | Call.get_resource_pool_by_name d r c h =>
      Some (get_resource_pool_by_name vc d r c h)
  | Call.get_cluster_by_name d c => Some (get_cluster_by_name vc d c)
  | Call.Cluster_get i => Some (Cluster_get vc i)
  | Call.filter i t => Some (filter vc i t)
  | Call.get_vm _ | Call.find_datastore_cluster_by_name _
  | Call.deploy _ _ _ => None
  end.

(** A lookup by name that was answered with nothing. *)
Definition found_nothing (vc : Vcenter) (c : Call.t) : bool :=
  match c with
  | Call.get_vm _ | Call.get_recommended_datastore _ | Call.Cluster_get _
  | Call.filter _ _ | Call.deploy _ _ _ => false
  | Call.find_datastore_cluster_by_name n =>
      match find_datastore_cluster_by_name vc n with
      | Returned None => true
      | _ => false
      end
  | _ =>
      match answer vc c with
      | Some (Returned v) => negb (truthy v)
      | _ => false
      end
  end.

(** The exception a call raised, if it did. *)
Definition raised (vc : Vcenter) (c : Call.t) : option exc :=
  match c with
  | Call.get_vm n =>
      match get_vm vc n with
      | Raised e => Some e
      | _ => None
      end
  | Call.find_datastore_cluster_by_name n =>
      match find_datastore_cluster_by_name vc n with
      | Raised e => Some e
      | _ => None
      end
  | Call.deploy i t sp =>
      match deploy vc i t sp with
      | Raised e => Some e
      | _ => None
      end
  | _ =>
      match answer vc c with
      | Some (Raised e) => Some e
      | _ => None
      end
  end.

(** The name a lookup was asked for. *)
Definition subject (c : Call.t) : val :=
  match c with
  | Call.get_datacenter_by_name n => n
  | Call.get_datastore_by_name _ n => n
  | Call.find_datastore_cluster_by_name n => n
  | Call.get_library_item_from_content_library_name t _ => t
  | Call.get_library_item_by_name t => t
  | Call.get_folder_by_name _ f => f
  | Call.get_host_by_name _ h => h
  | Call.get_resource_pool_by_name _ r _ _ => r
  | Call.get_cluster_by_name _ c => c
  | _ => PyNone
  end.

(** The message of the failure for a lookup that found nothing. *)
Definition not_found (c : Call.t) : string :=
  match c with
  | Call.get_datacenter_by_name n => "Failed to find the datacenter " +:+ str n
  | Call.get_datastore_by_name _ n => "Failed to find the datastore " +:+ str n
  | Call.find_datastore_cluster_by_name n =>
      "Failed to find the datastore cluster " +:+ str n
  | Call.get_library_item_from_content_library_name t l =>
      "Failed to find the library Item " +:+ str t
      +:+ " in content library " +:+ str l
  | Call.get_library_item_by_name t => "Failed to find the library Item " +:+ str t
  | Call.get_folder_by_name _ f => "Failed to find the folder " +:+ str f
  | Call.get_host_by_name _ h => "Failed to find the Host " +:+ str h
  | Call.get_resource_pool_by_name _ r _ _ =>
      "Failed to find the resource_pool " +:+ str r
  | Call.get_cluster_by_name _ c => "Failed to find the Cluster " +:+ str c
  | Call.get_recommended_datastore _ =>
      "Failed to find the datastore using either datastore or datastore cluster"
  | Call.Cluster_get _ =>
      "Failed to find a resource pool either by name or cluster"
  | _ => ""
  end.

Definition already_exists (vm_name : val) (vm : VirtualMachine) : outcome :=
  exit_json
    [("changed", JBool false);
     ("vm_deploy_info", JDict
        [("msg", JStr ("Virtual Machine '" +:+ str vm_name +:+ "' already Exists."));
         ("vm_id", json_of_val (_moId vm))])].

(** The document of check mode, lines 370-376. *)
Definition would_create (vm_name : val) : outcome :=
  exit_json
    [("failed", JBool false);
     ("changed", JBool true);
     ("vm_name", json_of_val vm_name);
     ("desired_operation", JStr "Create VM with PowerOff State")].

(** The exception of line 192: the module object has no [result]. *)
Definition no_result : exc := AttributeError "result".

(** Every run in closed form, by the answers of the platform: the
    existence check; in check mode the exit of [main]; otherwise the
    datacenter lookup, after which the run either fails for a datacenter
    that was not found or stops at line 192. *)
Definition expected (vc : Vcenter) (module : AnsibleModule) : outcome * state :=
  let p := get (params module) in
  let checked := [Call.get_vm (p "name")] in
  let looked :=
    [Call.get_vm (p "name"); Call.get_datacenter_by_name (p "datacenter")] in
  match get_vm vc (p "name") with
  | Raised e => (uncaught e, {| self := new module; trace := checked |})
  | Returned (Some vm) =>
      (already_exists (p "name") vm, {| self := new module; trace := checked |})
  | Returned None =>
      if check_mode module then
        (match params module !! "name" with
         | None => uncaught (KeyError "name")
         | Some vm_name => would_create vm_name
         end,
         {| self := new module; trace := checked |})
      else
        match get_datacenter_by_name vc (p "datacenter") with
        | Raised e => (uncaught e, {| self := new module; trace := looked |})
        | Returned dc =>
            (if truthy dc then uncaught no_result
             else fail_json ("Failed to find the datacenter "
                             +:+ str (p "datacenter")),
             {| self := set_datacenter_id dc (new module); trace := looked |})
        end
  end.

(** The identifier of every step of the chain before step [n] is not
    empty. *)
Definition nonempty_before (n : nat) (o : Self) : Prop :=
  (1 < n → truthy (datacenter_id o) = true)
  ∧ (2 < n → truthy (datastore_id o) = true)
  ∧ (3 < n → truthy (library_item_id o) = true)
  ∧ (4 < n → truthy (folder_id o) = true)
  ∧ (6 < n → truthy (resourcepool_id o) = true).

(** The deployment call as the final attributes of the object give it. *)
Definition deploy_of (module : AnsibleModule) (o : Self) (c : Call.t) : Prop :=
  ∃ ann,
    ovf_summary o = Some ann
    ∧ c = Call.deploy (library_item_id o)
          {| LibraryItem.resource_pool_id := resourcepool_id o;
             LibraryItem.folder_id := folder_id o |}
          {| LibraryItem.name := get (params module) "name";
             LibraryItem.annotation := ann;
             LibraryItem.accept_all_eula := true;
             LibraryItem.network_mappings := PyNone;
             LibraryItem.storage_mappings := PyNone;
             LibraryItem.storage_provisioning := storage_provisioning (new module);
             LibraryItem.storage_profile_id := PyNone;
             LibraryItem.locale := PyNone;
             LibraryItem.flags := PyNone;
             LibraryItem.additional_parameters := PyNone;
             LibraryItem.default_datastore_id := datastore_id o |}.

(** *** Words of the claims *)

(** A lookup answered with the identifier [id], and [id] is not empty. *)
Definition finds (r : reply val) (id : val) : Prop :=
  r = Returned id ∧ truthy id = true.

(** Every name of the request resolves: the datacenter to [dc], the
    datastore (or the datastore cluster) to [ds], the library item to
    [item], the folder to [fold], the host if one is named, and the
    resource pool (or the cluster) to [rp]. *)
Definition all_resolve (vc : Vcenter) (module : AnsibleModule)
    (dc ds item fold rp : val) : Prop :=
  let p := get (params module) in
  finds (get_datacenter_by_name vc (p "datacenter")) dc
  ∧ (if truthy (p "datastore")
     then finds (get_datastore_by_name vc (p "datacenter") (p "datastore")) ds
     else truthy (p "datastore_cluster") = true
          ∧ ∃ dsc, find_datastore_cluster_by_name vc (p "datastore_cluster")
                   = Returned (Some dsc)
                   ∧ finds (get_recommended_datastore vc dsc) ds)
  ∧ (if truthy (p "library")
     then finds (get_library_item_from_content_library_name vc
                   (p "template") (p "library")) item
     else finds (get_library_item_by_name vc (p "template")) item)
  ∧ finds (get_folder_by_name vc (p "datacenter") (p "folder")) fold
  ∧ (if truthy (p "host")
     then ∃ h, finds (get_host_by_name vc (p "datacenter") (p "host")) h
     else True)
  ∧ (if truthy (p "resource_pool")
     then finds (get_resource_pool_by_name vc (p "datacenter")
                   (p "resource_pool") (p "cluster") (p "host")) rp
     else truthy (p "cluster") = true
          ∧ ∃ cid, finds (get_cluster_by_name vc (p "datacenter") (p "cluster")) cid
                   ∧ finds (Cluster_get vc cid) rp).

(** [main], lines 346-353: the spellings the argument spec accepts. *)
Definition storage_provisioning_choices : list val :=
  [PyStr "thin"; PyStr "thick"; PyStr "eagerZeroedThick"; PyStr "eagerzeroedthick"].

Definition canonical_provisioning : list val :=
  [PyStr "thin"; PyStr "thick"; PyStr "eagerZeroedThick"].

(** The same request with one parameter set to [v]. *)
Definition with_param (k : string) (v : val) (module : AnsibleModule)
  : AnsibleModule :=
  {| params := <[k := v]> (params module);
     check_mode := check_mode module |}.

(** The deployment operation reported a failure: it raised, or it
    returned a result that did not succeed. *)
Definition reports_failure (vc : Vcenter) (c : Call.t) : bool :=
  match c with
  | Call.deploy i t sp =>
      match deploy vc i t sp with
      | Raised _ => true
      | Returned r => negb (LibraryItem.succeeded r)
      end
  | _ => false
  end.

End DeployRun.

Module PermissionsRun.

Import PermissionsInfo.

Definition is_retrieve (c : Call.t) : bool :=
  match c with
  | Call.RetrieveEntityPermissions _ _ => true
  | _ => false
  end.

Section Platform.

Context {Permission : Type}.

(** The message of the failure for an object that was not found. *)
Definition not_found (module : AnsibleModule) : string :=
  "Specified object " +:+ str (get (params module) "object_name")
  +:+ " of type " +:+ str (get (params module) "object_type")
  +:+ " was not found.".

(** How the run ends once the permissions of [obj] are asked for. *)
Definition retrieved (ct : Content Permission) (obj : ManagedObject)
  : outcome :=
  match RetrieveEntityPermissions _ ct obj false with
  | Returned perms => exit_json [("permissions", to_json _ ct perms)]
  | Raised e => uncaught e
  end.

(** The exception a call raised, if it did. *)
Definition raised (ct : Content Permission) (c : Call.t) : option exc :=
  match c with
  | Call.find_obj vimtype name =>
      match find_obj _ ct vimtype name with
      | Raised e => Some e
      | Returned _ => None
      end
  | Call.RetrieveEntityPermissions obj inherited =>
      match RetrieveEntityPermissions _ ct obj inherited with
      | Raised e => Some e
      | Returned _ => None
      end
  end.

(** Two requests with the same parameters, [moid] apart. *)
Definition same_but_moid (m1 m2 : AnsibleModule) : Prop :=
  ∀ k, k ≠ "moid" → params m1 !! k = params m2 !! k.

(** What holds of every finished run, by the calls it issued. *)
Definition settled (ct : Content Permission) (module : AnsibleModule)
    (o : outcome) (s : state Permission) : Prop :=
  match trace _ s with
  | [] => failed o = true
  | [Call.RetrieveEntityPermissions obj inherited] =>
      inherited = false ∧ obj = rootFolder _ ct ∧ o = retrieved ct obj
  | [Call.find_obj vimtype name] =>
      name = get (params module) "object_name"
      ∧ match find_obj _ ct vimtype name with
        | Raised e => o = uncaught e
        | Returned None => o = fail_json (not_found module)
        | Returned (Some _) => False
        end
  | [Call.find_obj vimtype name; Call.RetrieveEntityPermissions obj inherited] =>
      inherited = false
      ∧ name = get (params module) "object_name"
      ∧ find_obj _ ct vimtype name = Returned (Some obj)
      ∧ o = retrieved ct obj
  | _ => False
  end.

End Platform.

End PermissionsRun.

(** The result record of the specification,
    [{ succeeded: bool, id: string, message: string }]: three members, one
    a boolean and two strings; the names and the order are left free. *)
Module Report.

Definition is_bool (j : json) : bool :=
  match j with
  | JBool _ => true
  | _ => false
  end.

Definition is_str (j : json) : bool :=
  match j with
  | JStr _ => true
  | _ => false
  end.

Definition flat (kw : list (string * json)) : bool :=
  (length kw =? 3)
  && (length (List.filter is_bool (map snd kw)) =? 1)
  && (length (List.filter is_str (map snd kw)) =? 2).

Definition flat_outcome (o : outcome) : bool :=
  match o with
  | exit_json kw => flat kw
  | _ => false
  end.

End Report.

(** ** Sample requests and platforms *)

Module Samples.

Import DeployOvf.

(** A platform on which every lookup finds its object; the replies of
    the existence check, of the datacenter lookup, of the OVF query and
    of the deployment are left open. *)
Definition platform (vm : reply (option VirtualMachine)) (dc ovf : reply val)
    (dep : reply LibraryItem.DeploymentResult) : Vcenter :=
  {| get_vm := λ _, vm;
     get_datacenter_by_name := λ _, dc;
     get_datastore_by_name := λ _ _, Returned (PyStr "datastore-11");
     find_datastore_cluster_by_name := λ _, Returned None;
     get_recommended_datastore := λ _, Returned PyNone;
     get_library_item_from_content_library_name := λ _ _, Returned PyNone;
     get_library_item_by_name := λ _, Returned (PyStr "item-1");
     get_folder_by_name := λ _ _, Returned (PyStr "group-v3");
     get_host_by_name := λ _ _, Returned PyNone;
     get_resource_pool_by_name := λ _ _ _ _, Returned (PyStr "resgroup-8");
     get_cluster_by_name := λ _ _, Returned PyNone;
     Cluster_get := λ _, Returned PyNone;
     filter := λ _ _, ovf;
     deploy := λ _ _ _, dep;
     get_error_message := λ e,
       match e with
       | Error m => m
       | _ => "Generic error occurred."
       end;
     to_native := λ e,
       match e with
       | OtherException t => t
       | _ => "error"
       end |}.

Definition absent : reply (option VirtualMachine) := Returned None.

Definition vm_42 : VirtualMachine := {| _moId := PyStr "vm-42" |}.

Definition datacenter_2 : reply val := Returned (PyStr "datacenter-2").

Definition note : reply val := Returned (PyStr "RHEL test template").

Definition vm_1009 : reply LibraryItem.DeploymentResult :=
  Returned {| LibraryItem.succeeded := true;
              LibraryItem.resource_id := Some (PyStr "vm-1009") |}.

(** The first example of the module documentation. *)
Definition request : AnsibleModule :=
  {| params := list_to_map
       [("template", PyStr "rhel_test_template");
        ("name", PyStr "Sample_VM");
        ("datacenter", PyStr "Sample_DC_1");
        ("datastore", PyStr "Shared_NFS_Volume");
        ("folder", PyStr "vm");
        ("resource_pool", PyStr "test_rp");
        ("storage_provisioning", PyStr "thin")];
     check_mode := false |}.

Definition vc_ok : Vcenter := platform absent datacenter_2 note vm_1009.

Definition vc_no_datacenter : Vcenter :=
  platform absent (Returned PyNone) note vm_1009.

Definition vc_existing : Vcenter :=
  platform (Returned (Some vm_42)) datacenter_2 note vm_1009.

(** A service content for the permissions module: its entries are
    principal names. *)
Definition content (found : reply (option PermissionsInfo.ManagedObject))
    (perms : reply (list string)) : PermissionsInfo.Content string :=
  {| PermissionsInfo.rootFolder := "group-d1";
     PermissionsInfo.vim := λ n,
       bool_decide (n ∈ ["Folder"; "VirtualMachine"; "Datacenter";
                         "ResourcePool"; "Datastore"; "Network"; "HostSystem";
                         "ComputeResource"; "ClusterComputeResource";
                         "DistributedVirtualSwitch"]);
     PermissionsInfo.find_obj := λ _ _, found;
     PermissionsInfo.RetrieveEntityPermissions := λ _ _, perms;
     PermissionsInfo.to_json := λ l, JList (map JStr l) |}.

Definition permissions_request (moid : val) : PermissionsInfo.AnsibleModule :=
  {| PermissionsInfo.params := list_to_map
       [("moid", moid);
        ("object_name", PyStr "services");
        ("object_type", PyStr "Folder");
        ("principal", PyStr "user_bob");
        ("group", PyNone)];
     PermissionsInfo.check_mode := false |}.

Definition no_process_state : M (PermissionsInfo.state string) unit :=
  leave (uncaught (AttributeError "process_state")).

End Samples.

(** ** What a permissions run shows *)

Module PermissionsTrack.

Import PermissionsInfo PermissionsRun.

(** Lines 177-180: the warning for a distributed switch. *)
Definition switch_warning : string :=
  "You are applying permissions to a Distributed vSwitch. "
  +:+ "This will probably fail, since Distributed vSwitches inherits permissions "
  +:+ "from the datacenter or a folder level. "
  +:+ "Define permissions on the datacenter or the folder containing the switch.".

Section Platform.

Context {Permission : Type}.

(** What a run shows: its outcome, its calls and its warnings. *)
Definition observed (r : outcome * state Permission)
  : outcome * list Call.t * list string :=
  (r.1, trace _ r.2, warnings _ r.2).

(** The search of lines 163-181, for a type that is not [None]. *)
Definition searched (ct : Content Permission) (t : string) (object_type : val)
    (object_name : option val) : outcome * list Call.t * list string :=
  if vim _ ct t then
    match object_name with
    | None => (uncaught (KeyError "object_name"), [], [])
    | Some n =>
        match find_obj _ ct [t] n with
        | Raised e => (uncaught e, [Call.find_obj [t] n], [])
        | Returned None =>
            (fail_json ("Specified object " +:+ str n +:+ " of type "
                        +:+ str object_type +:+ " was not found."),
             [Call.find_obj [t] n], [])
        | Returned (Some obj) =>
            (retrieved ct obj,
             [Call.find_obj [t] n; Call.RetrieveEntityPermissions obj false],
             if bool_decide (object_type = PyStr "DistributedVirtualSwitch")
             then [switch_warning] else [])
        end
    end
  else (fail_json ("Object type " +:+ str object_type +:+ " is not valid."),
        [], []).

(** The run as a function of the two parameters it reads. *)
Definition expected (ct : Content Permission) (object_type object_name : option val)
  : outcome * list Call.t * list string :=
  match object_type with
  | None => (uncaught (KeyError "object_type"), [], [])
  | Some PyNone =>
      (uncaught (TypeError "attribute name must be string"), [], [])
  | Some (PyStr t) =>
      if bool_decide (t = "Folder") then
        match object_name with
        | None => (uncaught (KeyError "object_name"), [], [])
        | Some n =>
            if bool_decide (n = PyStr "rootFolder")
            then (retrieved ct (rootFolder _ ct),
                  [Call.RetrieveEntityPermissions (rootFolder _ ct) false], [])
            else searched ct t (PyStr t) object_name
        end
      else searched ct t (PyStr t) object_name
  end.

End Platform.

End PermissionsTrack.

(** ** More sample requests *)

Module MoreSamples.

Import DeployOvf Samples.

(** The sample request in check mode. *)
Definition check_request : AnsibleModule :=
  {| params := params request; check_mode := true |}.

(** The sample request without a resource pool. *)
Definition request_without_pool : AnsibleModule :=
  DeployRun.with_param "resource_pool" PyNone request.

(** A platform whose datacenter lookup does not answer. *)
Definition vc_unreachable : Vcenter :=
  platform absent (Raised (OtherException "Connection reset")) note vm_1009.

(** Requests for the permissions of other objects, or of another holder. *)
Definition permissions_of (object_type object_name principal group : val)
  : PermissionsInfo.AnsibleModule :=
  {| PermissionsInfo.params := list_to_map
       [("moid", PyNone);
        ("object_name", object_name);
        ("object_type", object_type);
        ("principal", principal);
        ("group", group)];
     PermissionsInfo.check_mode := false |}.

Definition found_v7 : PermissionsInfo.Content string :=
  content (Returned (Some "group-v7")) (Returned ["user_bob"]).

(** A service content on which the folder [services] is [group-v7], and
    every object has permissions of its own. *)
Definition inventory : PermissionsInfo.Content string :=
  {| PermissionsInfo.rootFolder := "group-d1";
     PermissionsInfo.vim := PermissionsInfo.vim _ found_v7;
     PermissionsInfo.find_obj := λ vimtype name,
       if bool_decide (vimtype = ["Folder"] ∧ name = PyStr "services")
       then Returned (Some "group-v7") else Returned None;
     PermissionsInfo.RetrieveEntityPermissions := λ obj _,
       if bool_decide (obj = "group-v7") then Returned ["user_bob"]
       else if bool_decide (obj = "group-d1") then Returned ["root_admin"]
       else Raised (OtherException "The object has already been deleted");
     PermissionsInfo.to_json := λ l, JList (map JStr l) |}.

End MoreSamples.

(** * Proofs *)

(** ** Rules of the weakest precondition *)

Module HoareFacts.
Import Hoare.

Section Rules.
Context {S : Type}.
Implicit Types (s : S) (E : outcome → S → Prop).

Lemma wp_ret {A} (a : A) (Q : A → S → Prop) E s :
  Q a s → wp (mret a) Q E s.
Proof. done. Qed.

Lemma wp_bind {A B} (m : M S A) (k : A → M S B) (Q : B → S → Prop) E s :
  wp m (λ a s', wp (k a) Q E s') E s → wp (m ≫= k) Q E s.
Proof.
  unfold wp, mbind, M_bind, bind. by destruct (m s) as [[a|o] s'].
Qed.

Lemma wp_leave {A} (o : outcome) (Q : A → S → Prop) E s :
  E o s → wp (leave o) Q E s.
Proof. done. Qed.

Lemma wp_read (Q : S → S → Prop) E s : Q s s → wp read Q E s.
Proof. done. Qed.

Lemma wp_modify (f : S → S) (Q : unit → S → Prop) E s :
  Q tt (f s) → wp (modify f) Q E s.
Proof. done. Qed.

Lemma wp_when (c : bool) (body : M S unit) (Q : unit → S → Prop) E s :
  (c = true → wp body Q E s) → (c = false → Q tt s) → wp (when c body) Q E s.
Proof. destruct c; cbn; auto. Qed.

Lemma wp_mono {A} (m : M S A) (Q Q' : A → S → Prop) E E' s :
  wp m Q E s →
  (∀ a s', Q a s' → Q' a s') → (∀ o s', E o s' → E' o s') →
  wp m Q' E' s.
Proof. unfold wp. destruct (m s) as [[a|o] s']; auto. Qed.

(** A block with its own specification, in the middle of a sequence. *)
Lemma wp_seq {A B} (m : M S A) (k : A → M S B) (I : A → S → Prop)
    (Q : B → S → Prop) E s :
  wp m I E s → (∀ a s', I a s' → wp (k a) Q E s') → wp (m ≫= k) Q E s.
Proof. intros Hm Hk. apply wp_bind. eapply wp_mono; eauto. Qed.

Lemma wp_finish (m : M S unit) (Q : unit → S → Prop) E
    (R : outcome * S → Prop) s :
  wp m Q E s →
  (∀ a s', Q a s' → R (no_output, s')) → (∀ o s', E o s' → R (o, s')) →
  R (finish (m s)).
Proof. unfold wp, finish. destruct (m s) as [[a|o] s']; cbn; eauto. Qed.
End Rules.

(** Rewrite with every equation of the context that applies. *)
Ltac use_replies :=
  repeat match goal with
         | H : ?x = _ |- context [?x] => rewrite H
         end.

End HoareFacts.

(** ** The deployment module *)

Module DeployFacts.
Import Hoare HoareFacts DeployOvf DeployRun.

(** *** Rules for the primitives of the module *)

Lemma wp_this (Q : Self → state → Prop) E s : Q (self s) s → wp this Q E s.
Proof. done. Qed.

Lemma wp_assign f (Q : unit → state → Prop) E s :
  Q tt {| self := f (self s); trace := trace s |} → wp (assign f) Q E s.
Proof. done. Qed.

Lemma wp_module_result (Q : unit → state → Prop) E s :
  E (uncaught no_result) s → wp module_result Q E s.
Proof. done. Qed.

Lemma wp_call {A} c (r : reply A) (Q : A → state → Prop) E s :
  (∀ a, r = Returned a → Q a (logged c s)) →
  (∀ e, r = Raised e → E (uncaught e) (logged c s)) →
  wp (call c r) Q E s.
Proof. intros HQ HE. destruct r; cbn; [apply HQ | apply HE]; done. Qed.

(** *** Symbolic execution

    [wp_step] takes one statement, splitting on the reply of a call and
    on the conditions; [st] reads the attributes of the state reached. *)

Ltac st :=
  cbn [self trace logged new app
       datacenter_id datastore_id library_item_id folder_id host_id cluster_id
       resourcepool_id template library vm_name datacenter datastore
       datastore_cluster folder resourcepool cluster host storage_provisioning
       ovf_summary deploy_spec set_datacenter_id] in *.

(** Conditions met on the way, as equations on [truthy]. *)
Ltac note_cond H :=
  rewrite ?negb_true_iff, ?negb_false_iff in H; try congruence.

Ltac wp_step :=
  lazymatch goal with
  | |- wp (mbind _ _) _ _ _ => apply wp_bind
  | |- wp (mret _) _ _ _ => apply wp_ret
  | |- wp (leave _) _ _ _ => apply wp_leave
  | |- wp this _ _ _ => apply wp_this
  | |- wp (assign _) _ _ _ => apply wp_assign
  | |- wp module_result _ _ _ => apply wp_module_result
  | |- wp (call _ _) _ _ _ => apply wp_call; intros ? ?
  | |- wp (when _ _) _ _ _ =>
      let H := fresh "Hc" in apply wp_when; intros H; note_cond H
  | |- wp (match ?x with _ => _ end) _ _ _ => destruct x eqn:?
  end;
  st.

(** *** Every run in closed form *)

(** The run ends at the existence check, at the exit of check mode, at
    the datacenter lookup or at line 192: the blocks after the first
    statement of [find_datastore] are never entered. *)
Lemma deploy_expected vc module : main vc module = expected vc module.
Proof.
  unfold main.
  apply (wp_finish _ (λ _ _, False) (λ o s, (o, s) = expected vc module)
           (λ r, r = expected vc module)); [|done|done].
  unfold init, start, deploy_vm_from_ovf_template, find_datacenter,
    find_datastore.
  repeat wp_step.
  all: unfold expected; use_replies; reflexivity.
Qed.

Lemma append_empty_r (x : string) : x +:+ "" = x.
Proof.
  induction x as [|a x IH]; [done|].
  change (String a (x +:+ "") = String a x). by rewrite IH.
Qed.

Lemma not_found_mentions vc c :
  found_nothing vc c = true → mentions (not_found c) (subject c).
Proof.
  destruct c; cbn; try done; intros _.
  all: try (eexists _, ""; by rewrite append_empty_r).
  by eexists _, _.
Qed.

(** The cases of a run, with the trace and the attributes in the open. *)
Ltac run_cases :=
  rewrite ?deploy_expected in *; unfold expected in *;
  repeat case_match; simplify_eq;
  cbn [fst snd self trace] in *;
  try congruence.

(** The calls of a trace, one by one. *)
Ltac each_call H :=
  repeat first
    [ apply elem_of_cons in H as [H|H]
    | apply elem_of_nil in H; destruct H ];
  subst.

(** *** Consequences for every run *)

Section Run.
Context (vc : Vcenter) (module : AnsibleModule).

Local Abbreviation o := (main vc module).1.
Local Abbreviation s := (main vc module).2.
Local Abbreviation p := (get (params module)).

(** The calls of a run are the existence check and, at most, the
    datacenter lookup. *)
Lemma calls_of_run c :
  c ∈ trace s →
  c = Call.get_vm (p "name")
  ∨ (c = Call.get_datacenter_by_name (p "datacenter")
     ∧ check_mode module = false
     ∧ get_vm vc (p "name") = Returned None
     ∧ last (trace s) = Some c
     ∧ match get_datacenter_by_name vc (p "datacenter") with
       | Raised e => o = uncaught e
       | Returned dc =>
           datacenter_id (self s) = dc
           ∧ o = if truthy dc then uncaught no_result
                 else fail_json (not_found c)
       end).
Proof.
  intros Hin. run_cases; each_call Hin; auto.
  all: right; repeat split; try done.
  all: by use_replies.
Qed.

Lemma nothing_deployed c : c ∈ trace s → is_deploy c = false.
Proof. intros Hin. by destruct (calls_of_run c Hin) as [->|[-> _]]. Qed.

Lemma early_calls c : c ∈ trace s → stage c ≤ 1.
Proof. intros Hin. destruct (calls_of_run c Hin) as [->|[-> _]]; cbn; lia. Qed.

Lemma existence_check_outcome e :
  get_vm vc (p "name") = Raised e → o = uncaught e.
Proof. intros H. by run_cases. Qed.

Lemma lookup_failure c :
  c ∈ trace s → found_nothing vc c = true →
  o = fail_json (not_found c)
  ∧ last (trace s) = Some c
  ∧ ∀ c', c' ∈ trace s → is_deploy c' = false.
Proof.
  intros Hin Hn.
  destruct (calls_of_run c Hin) as [->|(-> & _ & _ & Hl & H)]; [done|].
  cbn in Hn. split; [|split; [done|apply nothing_deployed]].
  destruct (get_datacenter_by_name vc (p "datacenter")) as [dc|e]; [|done].
  destruct H as [_ ->]. apply negb_true_iff in Hn. by rewrite Hn.
Qed.

Lemma call_failure c e :
  c ∈ trace s → raised vc c = Some e → o = uncaught e.
Proof.
  intros Hin He.
  destruct (calls_of_run c Hin) as [->|(-> & _ & _ & _ & H)]; cbn in He.
  - apply existence_check_outcome. by repeat case_match; simplify_eq.
  - destruct (get_datacenter_by_name vc (p "datacenter")); by simplify_eq.
Qed.

(** The attributes of the constructor are those of the request at the
    end of every run. *)
Lemma provisioning_kept :
  storage_provisioning (self s) = storage_provisioning (new module).
Proof. by run_cases. Qed.

(** Claim C5.  When a call is issued, the identifier resolved by every
    earlier step of the chain is not empty; so the deployment call is
    reached only with a non-empty datacenter, datastore, library item,
    folder and resource pool identifier, which are the ones it carries;
    and a resolver answered with an empty identifier ends the run there
    with a failure. *)
Theorem identifiers_nonempty c :
  c ∈ trace s →
  nonempty_before (stage c) (self s)
  ∧ (is_deploy c = true →
       deploy_of module (self s) c
       ∧ truthy (datacenter_id (self s)) = true
       ∧ truthy (datastore_id (self s)) = true
       ∧ truthy (library_item_id (self s)) = true
       ∧ truthy (folder_id (self s)) = true
       ∧ truthy (resourcepool_id (self s)) = true)
  ∧ (is_resolver c = true → ∀ v, answer vc c = Some (Returned v) →
       truthy v = false →
       last (trace s) = Some c ∧ o = fail_json (not_found c)).
Proof.
  intros Hin. split; [|split].
  - pose proof (early_calls c Hin). unfold nonempty_before.
    repeat split; intros; lia.
  - intros Hd. by rewrite (nothing_deployed c Hin) in Hd.
  - intros Hr v Hv Hf.
    destruct (calls_of_run c Hin) as [->|(-> & _ & _ & Hl & H)]; [done|].
    split; [done|]. cbn in Hv. simplify_eq. rewrite Hv in H.
    destruct H as [_ ->]. by rewrite Hf.
Qed.

(** Claim C8.  When a virtual machine with the requested name exists,
    the module leaves through [exit_json] with [changed=False], the
    id of that machine and the message that it already exists, and the
    existence check is the only call of the run: no name is resolved
    and nothing is deployed. *)
Theorem existing_vm_exits_unchanged vm :
  get_vm vc (get (params module) "name") = Returned (Some vm) →
  o = exit_json
        [("changed", JBool false);
         ("vm_deploy_info", JDict
            [("msg", JStr ("Virtual Machine '"
                           +:+ str (get (params module) "name")
                           +:+ "' already Exists."));
             ("vm_id", json_of_val (_moId vm))])]
  ∧ trace s = [Call.get_vm (get (params module) "name")].
Proof. intros Hvm. by run_cases. Qed.

(** Claim C3, against the code.  With check mode off, no machine of the
    requested name and every name resolved, the run issues no deployment
    call: it ends after the datacenter lookup, at the store into
    [module.result] of line 192, with [AttributeError]. *)
Theorem resolved_request_is_not_deployed dc ds item fold rp :
  check_mode module = false →
  get_vm vc (p "name") = Returned None →
  all_resolve vc module dc ds item fold rp →
  List.filter is_deploy (trace s) = []
  ∧ o = uncaught (AttributeError "result")
  ∧ trace s = [Call.get_vm (p "name");
               Call.get_datacenter_by_name (p "datacenter")].
Proof.
  intros Hcm Hvm ([Hdc Ht] & _). run_cases; done.
Qed.

(** Claim C4, against the code.  With check mode off and no machine of
    the requested name, a datacenter that is found is the only name the
    run resolves: the datastore, the library item, the folder, the host
    and the resource pool are not looked up, and the run ends as a
    failure at line 192. *)
Theorem resolution_stops_at_datacenter dc :
  check_mode module = false →
  get_vm vc (p "name") = Returned None →
  finds (get_datacenter_by_name vc (p "datacenter")) dc →
  List.filter is_resolver (trace s)
  = [Call.get_datacenter_by_name (p "datacenter")]
  ∧ datacenter_id (self s) = dc
  ∧ failed o = true
  ∧ ∀ msg, o ≠ fail_json msg.
Proof.
  intros Hcm Hvm [Hdc Ht]. run_cases; done.
Qed.

End Run.

(** *** The two spellings of the provisioning type *)

Section Spelling.
Context (vc : Vcenter) (module : AnsibleModule).

Lemma get_with_param_ne k k' v :
  k ≠ k' → get (params (with_param k v module)) k' = get (params module) k'.
Proof. intros Hk. unfold get, with_param; cbn. by rewrite lookup_insert_ne. Qed.

Lemma get_with_param_eq k v : get (params (with_param k v module)) k = v.
Proof. unfold get, with_param; cbn. by rewrite lookup_insert_eq. Qed.

Lemma new_spelling :
  new (with_param "storage_provisioning" (PyStr "eagerzeroedthick") module)
  = new (with_param "storage_provisioning" (PyStr "eagerZeroedThick") module).
Proof.
  unfold new. rewrite !get_with_param_eq, !get_with_param_ne by done. done.
Qed.

Lemma spelling_equivalent :
  main vc (with_param "storage_provisioning" (PyStr "eagerzeroedthick") module)
  = main vc (with_param "storage_provisioning" (PyStr "eagerZeroedThick") module).
Proof.
  rewrite !deploy_expected. unfold expected. rewrite new_spelling.
  rewrite !get_with_param_ne by done.
  cbn [with_param params check_mode].
  rewrite !lookup_insert_ne by done. done.
Qed.

Lemma new_canonical :
  get (params module) "storage_provisioning" ∈ storage_provisioning_choices →
  storage_provisioning (new module) ∈ canonical_provisioning.
Proof.
  unfold new, storage_provisioning_choices, canonical_provisioning.
  cbn [storage_provisioning]. intros H.
  case_bool_decide as Hsp; [by do 2 right; left|].
  repeat (apply elem_of_cons in H as [H|H]); try rewrite H.
  - by left.
  - by right; left.
  - by do 2 right; left.
  - done.
  - by apply elem_of_nil in H.
Qed.
End Spelling.
End DeployFacts.

(** ** The permissions module *)

Module PermissionsFacts.
Import Hoare HoareFacts PermissionsInfo PermissionsRun.

Ltac pst :=
  cbn [self warnings trace logged result is_group applied_to current_obj
       current_perms set_result set_is_group set_applied_to set_current_obj
       set_current_perms] in *.

Ltac perm_step :=
  lazymatch goal with
  | |- wp (mbind _ _) _ _ _ => apply wp_bind
  | |- wp (mret _) _ _ _ => apply wp_ret
  | |- wp (leave _) _ _ _ => apply wp_leave
  | |- wp read _ _ _ => apply wp_read
  | |- wp (modify _) _ _ _ => apply wp_modify
  | |- wp (when _ _) _ _ _ => apply wp_when; intros ?
  | |- wp (if ?c then _ else _) _ _ _ => destruct c eqn:?
  | |- wp (match ?x with _ => _ end) _ _ _ => destruct x eqn:?
  | |- wp (this _) _ _ _ => unfold this
  | |- wp (assign _ _) _ _ _ => unfold assign
  | |- wp (warn _ _) _ _ _ => unfold warn
  | |- wp (call _ _ _) _ _ _ => unfold call
  | |- wp (item _ _ _) _ _ _ => unfold item
  | |- wp (getattr_vim _ _ _) _ _ _ => unfold getattr_vim
  | |- wp (get_perms _ _) _ _ _ => unfold get_perms
  | |- wp (get_object _ _ _) _ _ _ => unfold get_object
  end;
  pst;
  repeat match goal with
         | H : bool_decide _ = true |- _ => apply bool_decide_eq_true in H
         | H : bool_decide _ = false |- _ => apply bool_decide_eq_false in H
         end;
  simplify_eq.

Ltac solve_permissions :=
  unfold settled, retrieved, not_found, get; pst;
  cbn [app dict_set String.eqb]; use_replies; cbn [default];
  repeat split; done.

Section Platform.
Context {Permission : Type} (process_state : M (state Permission) unit).
Context (ct : Content Permission) (module : AnsibleModule).

Lemma permissions_init_spec :
  wp (init Permission ct module) (λ _ _, False) (settled ct module)
     (start Permission).
Proof.
  unfold init, start, new.
  repeat perm_step.
  all: solve_permissions.
Qed.

(** The constructor always leaves: [process_state] is never reached. *)
Lemma permissions_settled :
  settled ct module (main Permission process_state ct module).1
                    (main Permission process_state ct module).2.
Proof.
  unfold main.
  apply (wp_finish _ (λ _ _, False) (settled ct module)
           (λ r, settled ct module r.1 r.2)); [|done|done].
  eapply wp_seq; [apply permissions_init_spec|done].
Qed.

Local Abbreviation o := (main Permission process_state ct module).1.
Local Abbreviation s := (main Permission process_state ct module).2.

Lemma object_not_found vimtype name :
  Call.find_obj vimtype name ∈ trace _ s →
  find_obj _ ct vimtype name = Returned None →
  o = fail_json (not_found module)
  ∧ ∀ c, c ∈ trace _ s → is_retrieve c = false.
Proof.
  intros Hin Hf. pose proof permissions_settled as H. unfold settled in H.
  destruct (trace _ s) as [|[vt n|obj inh] [|[vt' n'|obj' inh'] [|]]];
    try done.
  - by apply elem_of_nil in Hin.
  - apply list_elem_of_singleton in Hin as [= -> ->].
    rewrite Hf in H. destruct H as (_ & ->). split; [done|].
    by intros c ->%list_elem_of_singleton.
  - apply elem_of_cons in Hin as [[= -> ->]|Hin].
    + destruct H as (_ & _ & H & _). congruence.
    + by apply list_elem_of_singleton in Hin.
  - by apply list_elem_of_singleton in Hin.
Qed.

Lemma call_raised c e :
  c ∈ trace _ s → raised ct c = Some e → o = uncaught e.
Proof.
  intros Hin He. pose proof permissions_settled as H. unfold settled in H.
  destruct (trace _ s) as [|[vt n|obj inh] [|[vt' n'|obj' inh'] [|]]];
    try done; unfold retrieved in H.
  - by apply elem_of_nil in Hin.
  - apply list_elem_of_singleton in Hin as ->. cbn in He.
    destruct H as (_ & H).
    destruct (find_obj _ ct vt n) as [[]|]; congruence.
  - destruct H as (-> & _ & Hf & H).
    apply elem_of_cons in Hin as [->|Hin]; cbn in He.
    + by rewrite Hf in He.
    + apply list_elem_of_singleton in Hin as ->. cbn in He.
      destruct (RetrieveEntityPermissions _ ct obj' false); congruence.
  - destruct H as (-> & -> & H).
    apply list_elem_of_singleton in Hin as ->. cbn in He.
    destruct (RetrieveEntityPermissions _ ct _ false); congruence.
Qed.
End Platform.

Section Moid.
Context {Permission : Type} (process_state : M (state Permission) unit).
Context (ct : Content Permission).

(** Claim C10.  Two requests with the same parameters except for
    [moid] run alike: same calls, same warnings, same outcome. *)
Theorem moid_not_read (m1 m2 : AnsibleModule) :
  same_but_moid m1 m2 →
  main Permission process_state ct m1 = main Permission process_state ct m2.
Proof.
  intros H.
  unfold main, init, get_object, item, get.
  rewrite !(H "principal"), !(H "group"), !(H "object_type"),
    !(H "object_name") by done.
  done.
Qed.
End Moid.
End PermissionsFacts.

(** * The claims on both modules *)

Module Claims.

Import DeployRun DeployFacts.

(** Claim C1.  In either module a named object that is not found ends
    the run through [fail_json] with a message, and a call that raises
    ends the run as a failure: the deployment call through [fail_json],
    with the message [get_error_message] gives for the vendor's [Error]
    and the text of any other [Exception]; every other call with the
    exception itself, which nobody catches.  No run ends as a success
    on a deployment operation that reported a failure: the operation
    lies behind line 192, and no run invokes it. *)
Theorem errors_surface :
  (∀ vc module c,
     c ∈ DeployOvf.trace (DeployOvf.main vc module).2 →
     (found_nothing vc c = true →
        (DeployOvf.main vc module).1 = fail_json (not_found c))
     ∧ (∀ e, raised vc c = Some e →
          failed (DeployOvf.main vc module).1 = true
          ∧ (is_deploy c = false → (DeployOvf.main vc module).1 = uncaught e)
          ∧ (is_deploy c = true → is_Error e = true →
               (DeployOvf.main vc module).1
               = fail_json (DeployOvf.get_error_message vc e))
          ∧ (is_deploy c = true → is_Error e = false → is_Exception e = true →
               (DeployOvf.main vc module).1
               = fail_json (DeployOvf.to_native vc e)))
     ∧ (reports_failure vc c = true →
          failed (DeployOvf.main vc module).1 = true))
  ∧ (∀ Permission process_state (ct : PermissionsInfo.Content Permission)
       module c,
       c ∈ PermissionsInfo.trace _
             (PermissionsInfo.main _ process_state ct module).2 →
       (∀ vimtype name, c = PermissionsInfo.Call.find_obj vimtype name →
          PermissionsInfo.find_obj _ ct vimtype name = Returned None →
          (PermissionsInfo.main _ process_state ct module).1
          = fail_json (PermissionsRun.not_found module))
       ∧ (∀ e, PermissionsRun.raised ct c = Some e →
            (PermissionsInfo.main _ process_state ct module).1 = uncaught e)).
Proof.
  split.
  - intros vc module c Hin.
    pose proof (nothing_deployed vc module c Hin) as Hd.
    split; [|split].
    + intros Hn. by destruct (lookup_failure vc module c Hin Hn).
    + intros e He. rewrite (call_failure vc module c e Hin He).
      rewrite Hd. done.
    + intros Hr. by destruct c.
  - intros Permission process_state ct module c Hin. split.
    + intros vimtype name -> Hf.
      by destruct (PermissionsFacts.object_not_found process_state ct module
                     vimtype name Hin Hf).
    + intros e He. by eapply PermissionsFacts.call_raised.
Qed.

(** Claim C2.  In either module a lookup by name that finds nothing ends
    the run at once through [fail_json], with a message that names what
    was looked up, and the deployment, respectively the retrieval of the
    permissions, is never issued. *)
Theorem lookup_failure_is_terminal :
  (∀ vc module c,
     c ∈ DeployOvf.trace (DeployOvf.main vc module).2 →
     found_nothing vc c = true →
     (DeployOvf.main vc module).1 = fail_json (not_found c)
     ∧ mentions (not_found c) (subject c)
     ∧ last (DeployOvf.trace (DeployOvf.main vc module).2) = Some c
     ∧ ∀ c', c' ∈ DeployOvf.trace (DeployOvf.main vc module).2 →
             is_deploy c' = false)
  ∧ (∀ Permission process_state (ct : PermissionsInfo.Content Permission)
       module vimtype name,
       PermissionsInfo.Call.find_obj vimtype name
         ∈ PermissionsInfo.trace _
             (PermissionsInfo.main _ process_state ct module).2 →
       PermissionsInfo.find_obj _ ct vimtype name = Returned None →
       (PermissionsInfo.main _ process_state ct module).1
       = fail_json (PermissionsRun.not_found module)
       ∧ mentions (PermissionsRun.not_found module)
           (get (PermissionsInfo.params module) "object_name")
       ∧ ∀ c, c ∈ PermissionsInfo.trace _
                    (PermissionsInfo.main _ process_state ct module).2 →
              PermissionsRun.is_retrieve c = false).
Proof.
  split.
  - intros vc module c Hin Hn.
    destruct (lookup_failure vc module c Hin Hn) as (Ho & Hl & Hd).
    repeat split; try done. by eapply not_found_mentions.
  - intros Permission process_state ct module vimtype name Hin Hf.
    destruct (PermissionsFacts.object_not_found process_state ct module
                vimtype name Hin Hf) as (Ho & Hr).
    repeat split; try done. by eexists _, _.
Qed.

(** Claim C7 (amended).  No result document is a record of a boolean
    and two strings.  A result document of the deployment module is
    [{changed, vm_deploy_info: {msg, vm_id}}] or, in check mode, the
    document [{failed, changed, vm_name, desired_operation}]; the
    result document of the permissions module has the one member
    [permissions]. *)
Theorem result_documents :
  (∀ vc module kw,
     (DeployOvf.main vc module).1 = exit_json kw →
     Report.flat kw = false
     ∧ ((∃ (changed : bool) (msg : string) (vm_id : val),
           kw = [("changed", JBool changed);
                 ("vm_deploy_info", JDict
                    [("msg", JStr msg); ("vm_id", json_of_val vm_id)])])
        ∨ (DeployOvf.check_mode module = true
           ∧ ∃ vm_name,
               kw = [("failed", JBool false);
                     ("changed", JBool true);
                     ("vm_name", json_of_val vm_name);
                     ("desired_operation",
                      JStr "Create VM with PowerOff State")])))
  ∧ (∀ Permission process_state (ct : PermissionsInfo.Content Permission)
       module kw,
       (PermissionsInfo.main _ process_state ct module).1 = exit_json kw →
       Report.flat kw = false
       ∧ ∃ perms, kw = [("permissions", PermissionsInfo.to_json _ ct perms)]).
Proof.
  split.
  - intros vc module kw Ho. rewrite deploy_expected in Ho.
    unfold expected, already_exists, would_create in Ho.
    repeat case_match; cbn [fst] in Ho; simplify_eq; (split; [reflexivity|]).
    + left. eexists _, _, _. reflexivity.
    + right. split; [reflexivity|]. eexists. reflexivity.
  - intros Permission process_state ct module kw Ho.
    enough (∃ perms, kw = [("permissions", PermissionsInfo.to_json _ ct perms)])
      as [perms ->] by (split; [done|by exists perms]).
    pose proof (PermissionsFacts.permissions_settled process_state ct module)
      as H.
    unfold PermissionsRun.settled, PermissionsRun.retrieved in H.
    rewrite Ho in H.
    destruct (PermissionsInfo.trace _ _) as [|[vt n|obj inh] [|[vt' n'|obj' inh'] [|]]];
      try done.
    + destruct H as (_ & H).
      destruct (PermissionsInfo.find_obj _ ct vt n) as [[]|]; done.
    + destruct H as (_ & _ & _ & H).
      destruct (PermissionsInfo.RetrieveEntityPermissions _ ct obj' false)
        as [perms|]; [|done].
      injection H as ->. by exists perms.
    + destruct H as (_ & _ & H).
      destruct (PermissionsInfo.RetrieveEntityPermissions _ ct obj false)
        as [perms|]; [|done].
      injection H as ->. by exists perms.
Qed.

(** Claim C9.  The request with [storage_provisioning] spelled
    [eagerzeroedthick] runs as the one with [eagerZeroedThick]: same
    calls, same final state, same outcome; and for a spelling the
    argument spec accepts, the provisioning type the constructor leaves
    in the object, which is the one line 263 hands to the deployment
    spec, is [thin], [thick] or [eagerZeroedThick], as is that of the
    spec of any deployment call. *)
Theorem spelling_canonical vc module :
  DeployOvf.main vc
    (with_param "storage_provisioning" (PyStr "eagerzeroedthick") module)
  = DeployOvf.main vc
      (with_param "storage_provisioning" (PyStr "eagerZeroedThick") module)
  ∧ (get (DeployOvf.params module) "storage_provisioning"
       ∈ storage_provisioning_choices →
     DeployOvf.storage_provisioning (DeployOvf.self (DeployOvf.main vc module).2)
       ∈ canonical_provisioning
     ∧ ∀ i t sp,
         DeployOvf.Call.deploy i t sp
           ∈ DeployOvf.trace (DeployOvf.main vc module).2 →
         LibraryItem.storage_provisioning sp ∈ canonical_provisioning).
Proof.
  split; [apply spelling_equivalent|].
  intros Hc. split.
  - rewrite provisioning_kept. by apply new_canonical.
  - intros i t sp Hin. by pose proof (nothing_deployed vc module _ Hin).
Qed.

End Claims.

(** * The claims at sample requests *)

Module Witnesses.

Import DeployRun DeployFacts Claims Samples MoreSamples.

Ltac in_trace := vm_compute; repeat constructor.

(** The datacenter lookup raises: the exception ends the run. *)
Lemma errors_surface_witness :
  DeployOvf.Call.get_datacenter_by_name (PyStr "Sample_DC_1")
    ∈ DeployOvf.trace (DeployOvf.main vc_unreachable request).2
  ∧ raised vc_unreachable
      (DeployOvf.Call.get_datacenter_by_name (PyStr "Sample_DC_1"))
    = Some (OtherException "Connection reset")
  ∧ (DeployOvf.main vc_unreachable request).1
    = uncaught (OtherException "Connection reset").
Proof.
  assert (DeployOvf.Call.get_datacenter_by_name (PyStr "Sample_DC_1")
            ∈ DeployOvf.trace (DeployOvf.main vc_unreachable request).2)
    as Hin by in_trace.
  split; [exact Hin|]. split; [reflexivity|].
  destruct (proj1 errors_surface vc_unreachable request _ Hin) as (_ & H & _).
  destruct (H (OtherException "Connection reset") eq_refl) as (_ & H' & _).
  exact (H' eq_refl).
Defined.

Lemma lookup_failure_is_terminal_witness :
  DeployOvf.Call.get_datacenter_by_name (PyStr "Sample_DC_1")
    ∈ DeployOvf.trace (DeployOvf.main vc_no_datacenter request).2
  ∧ found_nothing vc_no_datacenter
      (DeployOvf.Call.get_datacenter_by_name (PyStr "Sample_DC_1")) = true
  ∧ (DeployOvf.main vc_no_datacenter request).1
    = fail_json "Failed to find the datacenter Sample_DC_1".
Proof.
  assert (DeployOvf.Call.get_datacenter_by_name (PyStr "Sample_DC_1")
            ∈ DeployOvf.trace (DeployOvf.main vc_no_datacenter request).2)
    as Hin by in_trace.
  split; [exact Hin|]. split; [reflexivity|].
  exact (proj1 (proj1 lookup_failure_is_terminal vc_no_datacenter request _
                  Hin eq_refl)).
Defined.

(** Every name of the documented example resolves, and nothing is
    deployed. *)
Lemma resolved_request_is_not_deployed_witness :
  DeployOvf.check_mode request = false
  ∧ DeployOvf.get_vm vc_ok (get (DeployOvf.params request) "name")
    = Returned None
  ∧ all_resolve vc_ok request (PyStr "datacenter-2") (PyStr "datastore-11")
      (PyStr "item-1") (PyStr "group-v3") (PyStr "resgroup-8")
  ∧ List.filter is_deploy (DeployOvf.trace (DeployOvf.main vc_ok request).2)
    = []
  ∧ (DeployOvf.main vc_ok request).1 = uncaught (AttributeError "result").
Proof.
  assert (all_resolve vc_ok request (PyStr "datacenter-2")
            (PyStr "datastore-11") (PyStr "item-1") (PyStr "group-v3")
            (PyStr "resgroup-8")) as Hall
    by (vm_compute; repeat split).
  split; [reflexivity|]. split; [reflexivity|]. split; [exact Hall|].
  destruct (resolved_request_is_not_deployed vc_ok request _ _ _ _ _
              eq_refl eq_refl Hall) as (Hd & Ho & _).
  split; [exact Hd|exact Ho].
Defined.

(** The documented example names a datastore, a folder and a resource
    pool: only its datacenter is looked up. *)
Lemma resolution_stops_at_datacenter_witness :
  finds (DeployOvf.get_datacenter_by_name vc_ok
           (get (DeployOvf.params request) "datacenter"))
    (PyStr "datacenter-2")
  ∧ List.filter is_resolver (DeployOvf.trace (DeployOvf.main vc_ok request).2)
    = [DeployOvf.Call.get_datacenter_by_name (PyStr "Sample_DC_1")]
  ∧ failed (DeployOvf.main vc_ok request).1 = true.
Proof.
  assert (finds (DeployOvf.get_datacenter_by_name vc_ok
                   (get (DeployOvf.params request) "datacenter"))
            (PyStr "datacenter-2")) as Hdc by (split; reflexivity).
  split; [exact Hdc|].
  destruct (resolution_stops_at_datacenter vc_ok request _
              eq_refl eq_refl Hdc) as (Hr & _ & Hf & _).
  split; [exact Hr|exact Hf].
Defined.

(** The datacenter is answered with nothing: the run ends there. *)
Lemma identifiers_nonempty_witness :
  DeployOvf.Call.get_datacenter_by_name (PyStr "Sample_DC_1")
    ∈ DeployOvf.trace (DeployOvf.main vc_no_datacenter request).2
  ∧ last (DeployOvf.trace (DeployOvf.main vc_no_datacenter request).2)
    = Some (DeployOvf.Call.get_datacenter_by_name (PyStr "Sample_DC_1"))
  ∧ (DeployOvf.main vc_no_datacenter request).1
    = fail_json "Failed to find the datacenter Sample_DC_1".
Proof.
  assert (DeployOvf.Call.get_datacenter_by_name (PyStr "Sample_DC_1")
            ∈ DeployOvf.trace (DeployOvf.main vc_no_datacenter request).2)
    as Hin by in_trace.
  split; [exact Hin|].
  exact (proj2 (proj2 (identifiers_nonempty vc_no_datacenter request _ Hin))
           eq_refl PyNone eq_refl eq_refl).
Defined.

(** The machine exists already: the document nests its two strings. *)
Lemma result_documents_witness :
  (DeployOvf.main vc_existing request).1
  = exit_json
      [("changed", JBool false);
       ("vm_deploy_info", JDict
          [("msg", JStr "Virtual Machine 'Sample_VM' already Exists.");
           ("vm_id", JStr "vm-42")])]
  ∧ Report.flat
      [("changed", JBool false);
       ("vm_deploy_info", JDict
          [("msg", JStr "Virtual Machine 'Sample_VM' already Exists.");
           ("vm_id", JStr "vm-42")])] = false.
Proof.
  assert ((DeployOvf.main vc_existing request).1
          = exit_json
              [("changed", JBool false);
               ("vm_deploy_info", JDict
                  [("msg", JStr "Virtual Machine 'Sample_VM' already Exists.");
                   ("vm_id", JStr "vm-42")])]) as Ho
    by (vm_compute; reflexivity).
  split; [exact Ho|].
  exact (proj1 (proj1 result_documents vc_existing request _ Ho)).
Defined.

(** Claim C7, as stated, at a machine that exists already and at a
    retrieval that succeeded: neither result document is a record of a
    boolean and two strings. *)
Lemma result_is_not_flat :
  (DeployOvf.main vc_existing request).1
  = already_exists (PyStr "Sample_VM") vm_42
  ∧ Report.flat_outcome (DeployOvf.main vc_existing request).1 = false
  ∧ (PermissionsInfo.main string no_process_state
       (content (Returned (Some "group-v7")) (Returned ["user_bob"]))
       (permissions_request PyNone)).1
    = exit_json [("permissions", JList [JStr "user_bob"])]
  ∧ Report.flat_outcome
      (PermissionsInfo.main string no_process_state
         (content (Returned (Some "group-v7")) (Returned ["user_bob"]))
         (permissions_request PyNone)).1 = false.
Proof. repeat split; vm_compute; reflexivity. Qed.

Lemma existing_vm_exits_unchanged_witness :
  DeployOvf.get_vm vc_existing (get (DeployOvf.params request) "name")
  = Returned (Some vm_42)
  ∧ (DeployOvf.main vc_existing request).1
    = exit_json
        [("changed", JBool false);
         ("vm_deploy_info", JDict
            [("msg", JStr "Virtual Machine 'Sample_VM' already Exists.");
             ("vm_id", JStr "vm-42")])]
  ∧ DeployOvf.trace (DeployOvf.main vc_existing request).2
    = [DeployOvf.Call.get_vm (PyStr "Sample_VM")].
Proof.
  split; [reflexivity|].
  pose proof (existing_vm_exits_unchanged vc_existing request vm_42 eq_refl)
    as [Ho Ht].
  split; [rewrite Ho|rewrite Ht]; vm_compute; reflexivity.
Defined.

(** The all-lowercase spelling leaves the canonical one in the object. *)
Lemma spelling_canonical_witness :
  get (DeployOvf.params
         (with_param "storage_provisioning" (PyStr "eagerzeroedthick") request))
    "storage_provisioning" ∈ storage_provisioning_choices
  ∧ DeployOvf.storage_provisioning
      (DeployOvf.self
         (DeployOvf.main vc_ok
            (with_param "storage_provisioning" (PyStr "eagerzeroedthick")
               request)).2) ∈ canonical_provisioning
  ∧ DeployOvf.storage_provisioning
      (DeployOvf.self
         (DeployOvf.main vc_ok
            (with_param "storage_provisioning" (PyStr "eagerzeroedthick")
               request)).2) = PyStr "eagerZeroedThick".
Proof.
  assert (get (DeployOvf.params
                 (with_param "storage_provisioning" (PyStr "eagerzeroedthick")
                    request)) "storage_provisioning"
            ∈ storage_provisioning_choices) as Hc by in_trace.
  split; [exact Hc|].
  split; [exact (proj1 (proj2 (spelling_canonical vc_ok _) Hc))|].
  vm_compute; reflexivity.
Defined.

Lemma moid_not_read_witness :
  PermissionsRun.same_but_moid
    (permissions_request (PyStr "group-v7")) (permissions_request PyNone)
  ∧ PermissionsInfo.main string no_process_state
      (content (Returned (Some "group-v7")) (Returned ["user_bob"]))
      (permissions_request (PyStr "group-v7"))
    = PermissionsInfo.main string no_process_state
        (content (Returned (Some "group-v7")) (Returned ["user_bob"]))
        (permissions_request PyNone).
Proof.
  assert (PermissionsRun.same_but_moid
            (permissions_request (PyStr "group-v7"))
            (permissions_request PyNone)) as H.
  { intros k Hk. unfold permissions_request; cbn.
    by rewrite !(lookup_insert_ne _ "moid" k). }
  split; [exact H|].
  exact (PermissionsFacts.moid_not_read no_process_state _ _ _ H).
Defined.

End Witnesses.

(** * Further properties of the two modules *)

(** ** The deployment module short of its target, and in check mode *)

Module DeployTrackFacts.
Import Hoare HoareFacts DeployOvf DeployRun DeployFacts.

(** Property X3.  A request that names neither a datastore nor a datastore
    cluster, or neither a resource pool nor a cluster, never gets as far
    as the OVF query: nothing is deployed, whatever the platform answers. *)
Theorem nothing_deployed_without_target vc module :
  (truthy (get (params module) "datastore") = false
   ∧ truthy (get (params module) "datastore_cluster") = false)
  ∨ (truthy (get (params module) "resource_pool") = false
     ∧ truthy (get (params module) "cluster") = false) →
  ∀ c, c ∈ trace (main vc module).2 → stage c < 7.
Proof.
  intros _ c Hin. pose proof (early_calls vc module c Hin). lia.
Qed.

(** Property X5.  In check mode, when no machine of the requested name
    exists, the module reports [changed=True] with the name and the
    operation it would do, and the existence check is its only call. *)
Theorem check_mode_reports_without_deploying vc module vm_name :
  check_mode module = true →
  get_vm vc (get (params module) "name") = Returned None →
  params module !! "name" = Some vm_name →
  (main vc module).1
  = exit_json
      [("failed", JBool false);
       ("changed", JBool true);
       ("vm_name", json_of_val vm_name);
       ("desired_operation", JStr "Create VM with PowerOff State")]
  ∧ trace (main vc module).2 = [Call.get_vm (get (params module) "name")].
Proof.
  intros Hcm Hvm Hn. unfold would_create in *. by run_cases.
Qed.

End DeployTrackFacts.

(** ** The permissions module as a function of its two parameters *)

Module PermissionsTrackFacts.
Import Hoare HoareFacts PermissionsInfo PermissionsRun PermissionsFacts PermissionsTrack.

Ltac solve_expected :=
  unfold observed, expected, searched, retrieved; pst;
  cbn [fst snd app dict_set String.eqb];
  use_replies;
  repeat case_bool_decide; simplify_eq; try done.

Section Platform.
Context {Permission : Type} (process_state : M (state Permission) unit).
Context (ct : Content Permission) (module : AnsibleModule).

Lemma init_expected :
  wp (init Permission ct module) (λ _ _, False)
     (λ o s, observed (o, s)
             = expected ct (params module !! "object_type")
                 (params module !! "object_name"))
     (start Permission).
Proof.
  unfold init, start, new.
  repeat perm_step.
  all: try solve_expected.
  all: exfalso;
    match goal with
    | H : get _ ?k ≠ PyNone, H' : _ !! ?k = None |- _ =>
        unfold get in H; rewrite H' in H; done
    end.
Qed.

(** The constructor always leaves, and the run is [expected]. *)
Lemma main_expected :
  observed (main Permission process_state ct module)
  = expected ct (params module !! "object_type") (params module !! "object_name").
Proof.
  unfold main.
  apply (wp_finish _ (λ _ _, False)
           (λ o s, observed (o, s)
                   = expected ct (params module !! "object_type")
                       (params module !! "object_name"))
           (λ r, observed r
                 = expected ct (params module !! "object_type")
                     (params module !! "object_name"))); [|done|done].
  eapply wp_seq; [apply init_expected|done].
Qed.
End Platform.

(** Property X7.  Two requests with the same [object_type] and
    [object_name] show the same outcome, the same calls and the same
    warnings: [principal] and [group] have no part in them, and
    [process_state] is never reached. *)
Theorem only_the_object_matters {Permission : Type}
    (ps1 ps2 : M (state Permission) unit) (ct : Content Permission)
    (m1 m2 : AnsibleModule) :
  params m1 !! "object_type" = params m2 !! "object_type" →
  params m1 !! "object_name" = params m2 !! "object_name" →
  observed (main Permission ps1 ct m1) = observed (main Permission ps2 ct m2).
Proof. intros Ht Hn. by rewrite !main_expected, Ht, Hn. Qed.

(** Property X8.  For the folder named [rootFolder] nothing is looked up:
    the permissions of the root folder of the content are retrieved at
    once, and no warning is given. *)
Theorem root_folder_needs_no_lookup {Permission : Type}
    (process_state : M (state Permission) unit) (ct : Content Permission)
    (module : AnsibleModule) :
  params module !! "object_type" = Some (PyStr "Folder") →
  params module !! "object_name" = Some (PyStr "rootFolder") →
  (main Permission process_state ct module).1 = retrieved ct (rootFolder _ ct)
  ∧ trace _ (main Permission process_state ct module).2
    = [Call.RetrieveEntityPermissions (rootFolder _ ct) false]
  ∧ warnings _ (main Permission process_state ct module).2 = [].
Proof.
  intros Ht Hn. pose proof (main_expected process_state ct module) as H.
  rewrite Ht, Hn in H. unfold observed, expected in H. cbn in H.
  by injection H as -> -> ->.
Qed.

(** Property X9.  An object type the [vim] namespace does not define fails
    the run with the message that the type is not valid, before any call
    (the root folder shortcut apart). *)
Theorem unknown_type_fails_without_calls {Permission : Type}
    (process_state : M (state Permission) unit) (ct : Content Permission)
    (module : AnsibleModule) t :
  params module !! "object_type" = Some (PyStr t) →
  vim _ ct t = false →
  (t = "Folder" →
   ∃ n, params module !! "object_name" = Some n ∧ n ≠ PyStr "rootFolder") →
  (main Permission process_state ct module).1
  = fail_json ("Object type " +:+ t +:+ " is not valid.")
  ∧ trace _ (main Permission process_state ct module).2 = [].
Proof.
  intros Ht Hv Hf. pose proof (main_expected process_state ct module) as H.
  rewrite Ht in H. unfold observed, expected, searched in H.
  rewrite Hv in H. case_bool_decide as Hd.
  - destruct (Hf Hd) as (n & Hn & Hne). rewrite Hn in H.
    rewrite bool_decide_eq_false_2 in H by done. by injection H as -> -> _.
  - by injection H as -> -> _.
Qed.

(** Property X10.  The module warns at most once, with the warning on
    distributed switches, and only for an object of type
    [DistributedVirtualSwitch] that [find_obj] found; for such an object
    it always warns, whatever the retrieval then answers. *)
Theorem switch_warning_only_when_found {Permission : Type}
    (process_state : M (state Permission) unit) (ct : Content Permission)
    (module : AnsibleModule) :
  (warnings _ (main Permission process_state ct module).2 = []
   ∨ (warnings _ (main Permission process_state ct module).2 = [switch_warning]
      ∧ params module !! "object_type" = Some (PyStr "DistributedVirtualSwitch")
      ∧ ∃ name obj,
          find_obj _ ct ["DistributedVirtualSwitch"] name = Returned (Some obj)
          ∧ trace _ (main Permission process_state ct module).2
            = [Call.find_obj ["DistributedVirtualSwitch"] name;
               Call.RetrieveEntityPermissions obj false]))
  ∧ (∀ name obj,
       params module !! "object_type" = Some (PyStr "DistributedVirtualSwitch") →
       params module !! "object_name" = Some name →
       vim _ ct "DistributedVirtualSwitch" = true →
       find_obj _ ct ["DistributedVirtualSwitch"] name = Returned (Some obj) →
       warnings _ (main Permission process_state ct module).2 = [switch_warning]).
Proof.
  pose proof (main_expected process_state ct module) as H.
  destruct (main Permission process_state ct module) as [o [sf w tr]].
  unfold observed, expected, searched in H. cbn [fst snd trace warnings] in *.
  split.
  - repeat case_match; simplify_eq; try by left.
    all: repeat match goal with
                | H : bool_decide _ = true |- _ => apply bool_decide_eq_true in H
                end; simplify_eq.
    all: right; repeat split; try done; eauto.
  - intros name obj Ht Hn Hv Hf. rewrite Ht, Hn, Hv, Hf in H.
    rewrite (bool_decide_eq_false_2 ("DistributedVirtualSwitch" = "Folder")) in H
      by done.
    rewrite bool_decide_eq_true_2 in H by done. by simplify_eq.
Qed.
(** Claim C6.  A run of the permissions module that leaves through
    [exit_json] read both [object_type] and [object_name] and issued
    exactly one retrieval, [RetrieveEntityPermissions] with [inherited]
    set to [False], on the object the request names: the root folder
    of the content for the folder [rootFolder], with no other call, and
    otherwise the object [find_obj] answered for that type and that
    name, which is the one other call of the run.  The result document
    holds, under [permissions], the answer of the retrieval translated
    to JSON. *)
Theorem one_permission_retrieval {Permission : Type}
    (process_state : M (state Permission) unit) (ct : Content Permission)
    (module : AnsibleModule) kw :
  (main Permission process_state ct module).1 = exit_json kw →
  ∃ t name obj perms,
    params module !! "object_type" = Some (PyStr t)
    ∧ params module !! "object_name" = Some name
    ∧ (if bool_decide (t = "Folder" ∧ name = PyStr "rootFolder")
       then obj = rootFolder _ ct
            ∧ trace _ (main Permission process_state ct module).2
              = [Call.RetrieveEntityPermissions obj false]
       else find_obj _ ct [t] name = Returned (Some obj)
            ∧ trace _ (main Permission process_state ct module).2
              = [Call.find_obj [t] name;
                 Call.RetrieveEntityPermissions obj false])
    ∧ List.filter is_retrieve
        (trace _ (main Permission process_state ct module).2)
      = [Call.RetrieveEntityPermissions obj false]
    ∧ RetrieveEntityPermissions _ ct obj false = Returned perms
    ∧ kw = [("permissions", to_json _ ct perms)]
    ∧ dict_get "permissions" kw = Some (to_json _ ct perms).
Proof.
  intros Ho. pose proof (main_expected process_state ct module) as H.
  destruct (main Permission process_state ct module) as [o [sf w tr]].
  unfold observed, expected, searched, retrieved in H.
  cbn [fst snd trace warnings] in *. subst o.
  repeat case_match; simplify_eq.
  all: repeat match goal with
              | H : bool_decide _ = _ |- _ =>
                  first [ apply bool_decide_eq_true in H
                        | apply bool_decide_eq_false in H ]
              end; simplify_eq.
  all: eexists _, _, _, _; split; [reflexivity|]; split; [reflexivity|].
  all: case_bool_decide as Hr; [destruct_and?; simplify_eq|];
       try (exfalso; apply Hr; by split).
  all: repeat split; try done; by rewrite ?Hr.
Qed.

End PermissionsTrackFacts.

(** * The further properties at sample requests *)

Module MoreWitnesses.

Import DeployOvf DeployRun DeployTrackFacts Samples MoreSamples.

Ltac in_trace := vm_compute; repeat constructor.

Lemma nothing_deployed_without_target_witness :
  (truthy (get (params request_without_pool) "resource_pool") = false
   ∧ truthy (get (params request_without_pool) "cluster") = false)
  ∧ ∀ c, c ∈ trace (main vc_ok request_without_pool).2 → stage c < 7.
Proof.
  assert (truthy (get (params request_without_pool) "resource_pool") = false
          ∧ truthy (get (params request_without_pool) "cluster") = false) as H
    by (split; vm_compute; reflexivity).
  split; [exact H|].
  exact (nothing_deployed_without_target vc_ok request_without_pool
           (or_intror H)).
Defined.

Lemma check_mode_reports_without_deploying_witness :
  check_mode check_request = true
  ∧ (main vc_ok check_request).1
    = exit_json
        [("failed", JBool false);
         ("changed", JBool true);
         ("vm_name", JStr "Sample_VM");
         ("desired_operation", JStr "Create VM with PowerOff State")].
Proof.
  split; [reflexivity|].
  exact (proj1 (check_mode_reports_without_deploying vc_ok check_request
                  (PyStr "Sample_VM") eq_refl eq_refl
                  ltac:(vm_compute; reflexivity))).
Defined.

Lemma only_the_object_matters_witness :
  PermissionsInfo.params
    (permissions_of (PyStr "Folder") (PyStr "services") (PyStr "user_bob") PyNone)
    !! "object_type"
  = PermissionsInfo.params
      (permissions_of (PyStr "Folder") (PyStr "services") PyNone (PyStr "finance"))
      !! "object_type"
  ∧ PermissionsTrack.observed
      (PermissionsInfo.main string no_process_state found_v7
         (permissions_of (PyStr "Folder") (PyStr "services") (PyStr "user_bob")
            PyNone))
    = PermissionsTrack.observed
        (PermissionsInfo.main string (mret tt) found_v7
           (permissions_of (PyStr "Folder") (PyStr "services") PyNone
              (PyStr "finance"))).
Proof.
  split; [vm_compute; reflexivity|].
  apply PermissionsTrackFacts.only_the_object_matters; vm_compute; reflexivity.
Defined.

Lemma root_folder_needs_no_lookup_witness :
  PermissionsInfo.params
    (permissions_of (PyStr "Folder") (PyStr "rootFolder") (PyStr "view_user")
       PyNone) !! "object_name" = Some (PyStr "rootFolder")
  ∧ PermissionsInfo.trace _
      (PermissionsInfo.main string no_process_state found_v7
         (permissions_of (PyStr "Folder") (PyStr "rootFolder")
            (PyStr "view_user") PyNone)).2
    = [PermissionsInfo.Call.RetrieveEntityPermissions "group-d1" false].
Proof.
  split; [vm_compute; reflexivity|].
  exact (proj1 (proj2 (PermissionsTrackFacts.root_folder_needs_no_lookup
                         no_process_state found_v7
                         (permissions_of (PyStr "Folder") (PyStr "rootFolder")
                            (PyStr "view_user") PyNone)
                         ltac:(vm_compute; reflexivity)
                         ltac:(vm_compute; reflexivity)))).
Defined.

Lemma unknown_type_fails_without_calls_witness :
  PermissionsInfo.vim _ found_v7 "Cluster" = false
  ∧ (PermissionsInfo.main string no_process_state found_v7
       (permissions_of (PyStr "Cluster") (PyStr "services")
          (PyStr "user_bob") PyNone)).1
    = fail_json "Object type Cluster is not valid.".
Proof.
  split; [vm_compute; reflexivity|].
  refine (proj1 (PermissionsTrackFacts.unknown_type_fails_without_calls
                   no_process_state found_v7
                   (permissions_of (PyStr "Cluster") (PyStr "services")
                      (PyStr "user_bob") PyNone) "Cluster"
                   ltac:(vm_compute; reflexivity)
                   ltac:(vm_compute; reflexivity) _)).
  intros H. discriminate H.
Defined.

Lemma switch_warning_only_when_found_witness :
  PermissionsInfo.find_obj _ found_v7 ["DistributedVirtualSwitch"]
    (PyStr "dvs-main") = Returned (Some "group-v7")
  ∧ PermissionsInfo.warnings _
      (PermissionsInfo.main string no_process_state found_v7
         (permissions_of (PyStr "DistributedVirtualSwitch") (PyStr "dvs-main")
            (PyStr "user_bob") PyNone)).2
    = [PermissionsTrack.switch_warning].
Proof.
  split; [reflexivity|].
  exact (proj2 (PermissionsTrackFacts.switch_warning_only_when_found
                  no_process_state found_v7
                  (permissions_of (PyStr "DistributedVirtualSwitch")
                     (PyStr "dvs-main") (PyStr "user_bob") PyNone))
           (PyStr "dvs-main") "group-v7"
           ltac:(vm_compute; reflexivity) ltac:(vm_compute; reflexivity)
           ltac:(vm_compute; reflexivity) eq_refl).
Defined.

(** The folder [services] of the inventory: its own permissions, not
    those of the root folder. *)
Lemma one_permission_retrieval_witness :
  (PermissionsInfo.main string no_process_state inventory
     (permissions_of (PyStr "Folder") (PyStr "services") (PyStr "user_bob")
        PyNone)).1
  = exit_json [("permissions", JList [JStr "user_bob"])]
  ∧ ∃ t name obj perms,
      PermissionsInfo.find_obj _ inventory [t] name = Returned (Some obj)
      ∧ PermissionsInfo.trace _
          (PermissionsInfo.main string no_process_state inventory
             (permissions_of (PyStr "Folder") (PyStr "services")
                (PyStr "user_bob") PyNone)).2
        = [PermissionsInfo.Call.find_obj [t] name;
           PermissionsInfo.Call.RetrieveEntityPermissions obj false]
      ∧ PermissionsInfo.RetrieveEntityPermissions _ inventory obj false
        = Returned perms.
Proof.
  assert ((PermissionsInfo.main string no_process_state inventory
             (permissions_of (PyStr "Folder") (PyStr "services")
                (PyStr "user_bob") PyNone)).1
          = exit_json [("permissions", JList [JStr "user_bob"])]) as Ho
    by (vm_compute; reflexivity).
  split; [exact Ho|].
  destruct (PermissionsTrackFacts.one_permission_retrieval no_process_state
              inventory _ _ Ho)
    as (t & name & obj & perms & Ht & Hn & Hcase & _ & Hr & _).
  exists t, name, obj, perms.
  assert (bool_decide (t = "Folder" ∧ name = PyStr "rootFolder") = false)
    as Hroot.
  { apply bool_decide_eq_false. intros [_ ->].
    vm_compute in Hn. discriminate Hn. }
  rewrite Hroot in Hcase. destruct Hcase as [Hf Htr].
  split; [exact Hf|]. split; [exact Htr|exact Hr].
Defined.

End MoreWitnesses.
